(** * Veonim: the redraw-protocol interpreter of [src/ui/galaxy.ts]

    A shallow embedding of the handlers registered on the dispatch table
    [api] and of the batch handler passed to [onRedraw], followed by the
    properties established about them.

    Numbers of the redraw protocol are integers (msgpack integers, far
    below 2^53), so a JavaScript [number] is a [Z] here.  The module is
    written against process-wide mutable state ([colors], [modes],
    [lastScrollRegion], [nextAttrs], the canvas [ui]); the embedding threads
    it explicitly through a state-and-exception monad. *)

From Stdlib Require Import ZArith Ascii String List Lia.
From stdpp Require Import base option list gmap strings.

Open Scope string_scope.
Open Scope list_scope.
Open Scope Z_scope.

(* ------------------------------------------------------------------ *)
(** ** Data, as the interfaces of the source declare it *)

(** [interface ScrollRegion] *)
Module ScrollRegion.
Record t : Type := mk { top : Z; bottom : Z; left : Z; right : Z }.
End ScrollRegion.

(** [interface Colors] *)
Module Colors.
Record t : Type := mk { fg : string; bg : string; sp : string }.
End Colors.

(** [interface Attrs].  Optional fields are [option]s; [None] is a field
    that is absent from the object. *)
Module Attrs.
Record t : Type := mk {
    fg : string;
    bg : string;
    foreground : option Z;
    background : option Z;
    special : option string;
    reverse : option string;
    italic : option string;
    bold : option string;
    underline : option string;
    undercurl : option string
  }.
End Attrs.

(** [enum CursorShape], imported from [./canvasgrid]; the three members the
    source names. *)
Module CursorShape.
Inductive t : Type := block | line | underline.
End CursorShape.

(** [interface Mode].  The declared type of [color] is [number], the values
    stored are the strings [asColor] returns or [colors.fg]. *)
Module Mode.
Record t : Type := mk {
    shape : CursorShape.t;
    size : option Z;
    color : option string
  }.
End Mode.

(** [interface ModeInfo] *)
Module ModeInfo.
Record t : Type := mk {
    blinkoff : option Z;
    blinkon : option Z;
    blinkwait : option Z;
    cell_percentage : option Z;
    cursor_shape : option string;
    hl_id : option Z;
    id_lm : option Z;
    mouse_shape : option Z;
    name : string;
    short_name : string
  }.
End ModeInfo.

(** Positional values of the wire format.  [VTuples] is the array of
    argument tuples that the batch handler hands to [put] in one piece. *)
#[warnings="-register-all"]
Inductive value : Type :=
| VUndefined
| VNum (n : Z)
| VStr (s : string)
| VAttrs (a : Attrs.t)
| VModeInfos (infos : list ModeInfo.t)
| VTuples (m : list (list value)).

(** One entry [[method, ...args]] of a redraw batch. *)
Record Entry : Type := mkEntry { method : string; args : list (list value) }.

(* ------------------------------------------------------------------ *)
(** ** The canvas *)

(** What [ui.getImageData] returns: the rectangle read, and how many calls
    the canvas had received when it was read. *)
Record ImageData : Type := mkImageData {
  img_x : Z; img_y : Z; img_width : Z; img_height : Z; img_taken : nat
}.

(** A call received by the canvas. *)
Inductive Call : Type :=
| Clear
| SetColor (color : string)
| FillRect (col row width height : Z)
| SetTextBaseline (mode : string)
| FillText (text : value) (col row : Z)
| GetImageData (x y width height : Z)
| PutImageData (data : ImageData) (x y : Z)
| SetCursorShape (shape : CursorShape.t) (size : option Z)
| MoveCursor.

Module Cursor.
Record t : Type := mk { row : Z; col : Z }.
End Cursor.

(** Modelled from the spec: the module [./canvasgrid] behind [ui] is not
    part of the sources.  The spec gives its interface (rectangle fill, text
    paint, region copy and paste, cursor shape; "exposes current logical
    column/row counts"); the canvas is therefore its column and row counts,
    its logical cursor, and the ordered log of the calls it received.  Every
    method appends its call and returns the canvas, as the chained calls of
    the source need. *)
Module CanvasGrid.
Record t : Type := mk {
    cols : Z;
    rows : Z;
    cursor : Cursor.t;
    calls : list Call
  }.
End CanvasGrid.

(* ------------------------------------------------------------------ *)
(** ** The state of the module, and its monad *)

(** A callback handed to [setTimeout]. *)
Inductive Task : Type := TaskMoveCursor.

(** Everything the module mutates.  [nextAttrs] is declared without an
    initialiser ([let nextAttrs: Attrs]), so it is [undefined] ([None]) until
    the first [highlight_set].  [awaiting] holds the invocations of the
    [async] callback of [mode_info_set] that are suspended at
    [await getColor (mi.hl_id)], oldest first, each with the [mi] and the
    [info] it has captured. *)
Record State : Type := mkState {
  ui : CanvasGrid.t;
  colors : Colors.t;
  modes : gmap string Mode.t;
  lastScrollRegion : option ScrollRegion.t;
  nextAttrs : option Attrs.t;
  awaiting : list (ModeInfo.t * Mode.t);
  timers : list Task
}.

Inductive exn : Type := TypeError (msg : string).

(** Outcome of running a piece of the module: it returns, or it throws (the
    mutations made before the throw persist), or the call has left the typed
    interface: a handler was invoked on an argument tuple that its
    TypeScript signature does not admit, which the embedding does not follow
    further. *)
Inductive Res (A : Type) : Type :=
| Ok (a : A) (s : State)
| Throw (e : exn) (s : State)
| Untyped.
Arguments Ok {A} a s.
Arguments Throw {A} e s.
Arguments Untyped {A}.

Definition M (A : Type) : Type := State -> Res A.

Definition ret {A} (a : A) : M A := fun s => Ok a s.

Definition bind {A B} (c : M A) (k : A -> M B) : M B :=
  fun s => match c s with
           | Ok a s' => k a s'
           | Throw e s' => Throw e s'
           | Untyped => Untyped
           end.

Notation "x <- c ;; k" := (bind c (fun x => k))
  (at level 100, c at next level, right associativity).
Notation "c ;; k" := (bind c (fun _ => k))
  (at level 100, right associativity).

Definition gets {A} (f : State -> A) : M A := fun s => Ok (f s) s.
Definition modify (f : State -> State) : M unit := fun s => Ok tt (f s).
Definition throw {A} (e : exn) : M A := fun s => Throw e s.
Definition untyped {A} : M A := fun _ => Untyped.

(** [xs.forEach(f)] *)
Fixpoint forEach {A} (f : A -> M unit) (xs : list A) : M unit :=
  match xs with
  | [] => ret tt
  | x :: xs' => f x ;; forEach f xs'
  end.

(** Field updates of [State]. *)
Definition set_ui (u : CanvasGrid.t) (s : State) : State :=
  mkState u (colors s) (modes s) (lastScrollRegion s) (nextAttrs s)
          (awaiting s) (timers s).
Definition set_colors (c : Colors.t) (s : State) : State :=
  mkState (ui s) c (modes s) (lastScrollRegion s) (nextAttrs s)
          (awaiting s) (timers s).
Definition set_modes (m : gmap string Mode.t) (s : State) : State :=
  mkState (ui s) (colors s) m (lastScrollRegion s) (nextAttrs s)
          (awaiting s) (timers s).
Definition set_lastScrollRegion (r : option ScrollRegion.t) (s : State) : State :=
  mkState (ui s) (colors s) (modes s) r (nextAttrs s) (awaiting s) (timers s).
Definition set_nextAttrs (a : option Attrs.t) (s : State) : State :=
  mkState (ui s) (colors s) (modes s) (lastScrollRegion s) a
          (awaiting s) (timers s).
Definition set_awaiting (w : list (ModeInfo.t * Mode.t)) (s : State) : State :=
  mkState (ui s) (colors s) (modes s) (lastScrollRegion s) (nextAttrs s)
          w (timers s).
Definition set_timers (t : list Task) (s : State) : State :=
  mkState (ui s) (colors s) (modes s) (lastScrollRegion s) (nextAttrs s)
          (awaiting s) t.

(** The canvas methods: each appends its call to the log. *)
Definition ui_call (c : Call) : M unit :=
  modify (fun s =>
    set_ui (CanvasGrid.mk (CanvasGrid.cols (ui s)) (CanvasGrid.rows (ui s))
                          (CanvasGrid.cursor (ui s))
                          (CanvasGrid.calls (ui s) ++ [c])) s).

Definition ui_getImageData (x y w h : Z) : M ImageData :=
  n <- gets (fun s => length (CanvasGrid.calls (ui s))) ;;
  ui_call (GetImageData x y w h) ;;
  ret (mkImageData x y w h n).

Definition set_cursor (c : Cursor.t) : M unit :=
  modify (fun s =>
    set_ui (CanvasGrid.mk (CanvasGrid.cols (ui s)) (CanvasGrid.rows (ui s))
                          c (CanvasGrid.calls (ui s))) s).

Definition ui_cols : M Z := gets (fun s => CanvasGrid.cols (ui s)).
Definition ui_rows : M Z := gets (fun s => CanvasGrid.rows (ui s)).
Definition ui_cursor : M Cursor.t := gets (fun s => CanvasGrid.cursor (ui s)).

(* ------------------------------------------------------------------ *)
(** ** The module's own definitions, in source order *)

(** Truthiness of an optional number and of an optional string, as the
    conditions [x ? .. : ..] and [if (x)] of the source test them. *)
Definition truthy_num (x : option Z) : bool :=
  match x with
  | Some n => negb (n =? 0)
  | None => false
  end.

Definition truthy_str (x : option string) : bool :=
  match x with
  | Some s => negb (String.eqb s "")
  | None => false
  end.

(** [const colors: Colors = { fg: '#ccc', bg: '#222', sp: '#f00' }] *)
Definition colors0 : Colors.t := Colors.mk "#ccc" "#222" "#f00".

(** The state when the module has been loaded, over a canvas [u]. *)
Definition init (u : CanvasGrid.t) : State :=
  mkState u colors0 ∅ None None [] [].

(** [defaultScrollRegion] *)
Definition defaultScrollRegion : M ScrollRegion.t :=
  c <- ui_cols ;;
  r <- ui_rows ;;
  ret (ScrollRegion.mk 0 r 0 c).

(** [moveRegionUp] *)
Definition moveRegionUp (amount : Z) (rg : ScrollRegion.t) : M unit :=
  let top := ScrollRegion.top rg in
  let bottom := ScrollRegion.bottom rg in
  let left := ScrollRegion.left rg in
  let right := ScrollRegion.right rg in
  slice <- ui_getImageData left (top + amount) (right - left + 1)
                           (bottom - (top + amount) + 1) ;;
  ui_call (PutImageData slice left top) ;;
  bg <- gets (fun s => Colors.bg (colors s)) ;;
  ui_call (SetColor bg) ;;
  ui_call (FillRect left (bottom - amount + 1) (right - left + 1) amount).

(** [moveRegionDown] *)
Definition moveRegionDown (amount : Z) (rg : ScrollRegion.t) : M unit :=
  let top := ScrollRegion.top rg in
  let bottom := ScrollRegion.bottom rg in
  let left := ScrollRegion.left rg in
  let right := ScrollRegion.right rg in
  slice <- ui_getImageData left top (right - left + 1)
                           (bottom - (top + amount) + 1) ;;
  ui_call (PutImageData slice left (top + amount)) ;;
  bg <- gets (fun s => Colors.bg (colors s)) ;;
  ui_call (SetColor bg) ;;
  ui_call (FillRect left top (right - left + 1) amount).

(** [n.toString(16)] for [0 <= n < 256], the only values [asColor] prints. *)
Definition hexDigit (d : Z) : string :=
  match d with
  | 0 => "0" | 1 => "1" | 2 => "2" | 3 => "3" | 4 => "4" | 5 => "5"
  | 6 => "6" | 7 => "7" | 8 => "8" | 9 => "9" | 10 => "a" | 11 => "b"
  | 12 => "c" | 13 => "d" | 14 => "e" | _ => "f"
  end.

Definition toString16 (n : Z) : string :=
  if n <? 16 then hexDigit n
  else String.append (hexDigit (n / 16)) (hexDigit (n mod 16)).

(** [asColor].  The operands of [&] and [>>] are 32-bit integers in
    JavaScript; the mask is positive and below 2^32, so on an integer
    [color] the result is the [Z.land] below. *)
Definition asColor (color : Z) : string :=
  String.append "#"
    (String.concat ""
       (map (fun shift =>
               let mask := Z.shiftl 255 shift in
               let hex := toString16 (Z.shiftr (Z.land color mask) shift) in
               if Z.of_nat (String.length hex) <? 2
               then String.append "0" hex
               else hex)
            [16; 8; 0])).

(** [cursorShapeType] *)
Definition cursorShapeType (type : option string) : CursorShape.t :=
  if decide (type = Some "block") then CursorShape.block
  else if decide (type = Some "horizontal") then CursorShape.underline
  else if decide (type = Some "vertical") then CursorShape.line
  else CursorShape.block.

(** [r.clear] *)
Definition r_clear : M unit :=
  bg <- gets (fun s => Colors.bg (colors s)) ;;
  ui_call (SetColor bg) ;;
  ui_call Clear.

(** [r.update_fg], [r.update_bg], [r.update_sp] *)
Definition r_update_fg (fg : Z) : M unit :=
  if fg >? -1
  then modify (fun s => set_colors
         (Colors.mk (asColor fg) (Colors.bg (colors s)) (Colors.sp (colors s))) s)
  else ret tt.

Definition r_update_bg (bg : Z) : M unit :=
  if bg >? -1
  then modify (fun s => set_colors
         (Colors.mk (Colors.fg (colors s)) (asColor bg) (Colors.sp (colors s))) s)
  else ret tt.

Definition r_update_sp (sp : Z) : M unit :=
  if sp >? -1
  then modify (fun s => set_colors
         (Colors.mk (Colors.fg (colors s)) (Colors.bg (colors s)) (asColor sp)) s)
  else ret tt.

(** [r.cursor_goto] *)
Definition r_cursor_goto (row col : Z) : M unit :=
  set_cursor (Cursor.mk row col).

(** [r.eol_clear] *)
Definition r_eol_clear : M unit :=
  bg <- gets (fun s => Colors.bg (colors s)) ;;
  ui_call (SetColor bg) ;;
  c <- ui_cursor ;;
  n <- ui_cols ;;
  ui_call (FillRect (Cursor.col c) (Cursor.row c) (n - 1) 1).

(** [r.set_scroll_region] *)
Definition r_set_scroll_region (top bottom left right : Z) : M unit :=
  modify (set_lastScrollRegion (Some (ScrollRegion.mk top bottom left right))).

(** The callback of [r.mode_info_set], an [async] function: it runs up to
    its first [await] inside the [forEach].  Without a truthy [mi.hl_id] it
    has no [await] and registers the mode at once; with one it issues
    [getColor (mi.hl_id)] and is suspended there. *)
Definition mode_info_set_callback (mi : ModeInfo.t) : M unit :=
  let info := Mode.mk (cursorShapeType (ModeInfo.cursor_shape mi))
                      (ModeInfo.cell_percentage mi) None in
  if truthy_num (ModeInfo.hl_id mi)
  then modify (fun s => set_awaiting (awaiting s ++ [(mi, info)]) s)
  else modify (fun s => set_modes (<[ModeInfo.name mi := info]> (modes s)) s).

(** [r.mode_info_set] *)
Definition r_mode_info_set (infos : list ModeInfo.t) : M unit :=
  forEach mode_info_set_callback infos.

(** The promise of the [k]-th suspended callback is fulfilled with
    [{ bg }]: the rest of the callback runs, as a job of its own between
    batches. *)
Definition getColor_fulfilled (k : nat) (bg : option Z) : M unit :=
  fun s =>
    match awaiting s !! k with
    | Some (mi, info) =>
        let color := match bg with
                     | Some b => if truthy_num bg then asColor b
                                 else Colors.fg (colors s)
                     | None => Colors.fg (colors s)
                     end in
        let info' := Mode.mk (Mode.shape info) (Mode.size info) (Some color) in
        Ok tt (set_modes (<[ModeInfo.name mi := info']> (modes s))
                 (set_awaiting (delete k (awaiting s)) s))
    | None => Ok tt s
    end.

(** [r.mode_change] *)
Definition r_mode_change (mode : string) : M unit :=
  info <- gets (fun s => modes s !! mode) ;;
  match info with
  | Some info => ui_call (SetCursorShape (Mode.shape info) (Mode.size info))
  | None => ret tt
  end.

(** [r.highlight_set]; [None] is a call without an argument, for which the
    default [{ fg: '', bg: '' }] of the parameter is taken. *)
Definition r_highlight_set (attrs : option Attrs.t) : M unit :=
  let attrs := default (Attrs.mk "" "" None None None None None None None None)
                       attrs in
  cfg <- gets (fun s => Colors.fg (colors s)) ;;
  cbg <- gets (fun s => Colors.bg (colors s)) ;;
  let fg := match Attrs.foreground attrs with
            | Some n => if truthy_num (Some n) then asColor n else cfg
            | None => cfg
            end in
  let bg := match Attrs.background attrs with
            | Some n => if truthy_num (Some n) then asColor n else cbg
            | None => cbg
            end in
  let with_colors (f b : string) :=
    Attrs.mk f b (Attrs.foreground attrs) (Attrs.background attrs)
             (Attrs.special attrs) (Attrs.reverse attrs) (Attrs.italic attrs)
             (Attrs.bold attrs) (Attrs.underline attrs) (Attrs.undercurl attrs) in
  modify (set_nextAttrs (Some (with_colors fg bg))) ;;
  if truthy_str (Attrs.reverse attrs)
  then modify (set_nextAttrs (Some (with_colors bg fg)))
  else ret tt.

(** [r.scroll] *)
Definition r_scroll (amount : Z) : M unit :=
  last <- gets lastScrollRegion ;;
  rg <- match last with
        | Some rg => ret rg
        | None => defaultScrollRegion
        end ;;
  (if amount >? 0 then moveRegionUp amount rg else moveRegionDown (- amount) rg) ;;
  modify (set_lastScrollRegion None).

(** [m[ix][0]] *)
Definition glyph (tuple : list value) : value :=
  match tuple with
  | g :: _ => g
  | [] => VUndefined
  end.

(** The [for] loop of [r.put] over the entries of [m] that remain. *)
Fixpoint put_loop (m : list (list value)) : M unit :=
  match m with
  | [] => ret tt
  | tuple :: rest =>
      c <- ui_cursor ;;
      ui_call (FillText (glyph tuple) (Cursor.col c) (Cursor.row c)) ;;
      set_cursor (Cursor.mk (Cursor.row c) (Cursor.col c + 1)) ;;
      n <- ui_cols ;;
      (if Cursor.col c + 1 >? n
       then set_cursor (Cursor.mk (Cursor.row c + 1) 0)
       else ret tt) ;;
      put_loop rest
  end.

(** [r.put].  Reading [nextAttrs.bg] while [nextAttrs] is [undefined]
    throws, before the canvas has received any call. *)
Definition r_put (m : list (list value)) : M unit :=
  let total := Z.of_nat (length m) in
  if total =? 0 then ret tt
  else
    na <- gets nextAttrs ;;
    match na with
    | None => throw (TypeError "Cannot read property 'bg' of undefined")
    | Some na =>
        c <- ui_cursor ;;
        ui_call (SetColor (Attrs.bg na)) ;;
        ui_call (FillRect (Cursor.col c) (Cursor.row c) total 1) ;;
        ui_call (SetColor (Attrs.fg na)) ;;
        ui_call (SetTextBaseline "bottom") ;;
        put_loop m
    end.

(* ------------------------------------------------------------------ *)
(** ** The dispatch table and the batch handler *)

(** A registered handler, applied to the list of its arguments. *)
Abbreviation Function := (list value -> M unit) (only parsing).

(** [const api = new Map<string, Function>()], filled through the proxy [r]
    by the assignments [r.name = fn], in source order.  Each handler binds
    its parameters positionally; further arguments are ignored. *)
Definition api : gmap string Function :=
  foldl (fun table '(name, fn) => <[name := fn]> table) ∅
    [ ("clear", fun _ => r_clear);
      ("update_fg", fun a => match a with
                             | VNum fg :: _ => r_update_fg fg
                             | _ => untyped
                             end);
      ("update_bg", fun a => match a with
                             | VNum bg :: _ => r_update_bg bg
                             | _ => untyped
                             end);
      ("update_sp", fun a => match a with
                             | VNum sp :: _ => r_update_sp sp
                             | _ => untyped
                             end);
      ("cursor_goto", fun a => match a with
                               | VNum row :: VNum col :: _ => r_cursor_goto row col
                               | _ => untyped
                               end);
      ("eol_clear", fun _ => r_eol_clear);
      ("set_scroll_region",
       fun a => match a with
                | VNum top :: VNum bottom :: VNum lft :: VNum rgt :: _ =>
                    r_set_scroll_region top bottom lft rgt
                | _ => untyped
                end);
      ("mode_info_set", fun a => match a with
                                 | _ :: VModeInfos infos :: _ => r_mode_info_set infos
                                 | _ => untyped
                                 end);
      ("mode_change", fun a => match a with
                               | VStr mode :: _ => r_mode_change mode
                               | _ => untyped
                               end);
      ("highlight_set", fun a => match a with
                                 | [] | VUndefined :: _ => r_highlight_set None
                                 | VAttrs attrs :: _ => r_highlight_set (Some attrs)
                                 | _ => untyped
                                 end);
      ("scroll", fun a => match a with
                          | VNum amount :: _ => r_scroll amount
                          | _ => untyped
                          end);
      ("put", fun a => match a with
                       | VTuples m :: _ => r_put m
                       | _ => untyped
                       end) ].

(** The body of the [for] loop of the batch handler, for one entry. *)
Definition dispatch (e : Entry) : M unit :=
  match api !! method e with
  | Some fn =>
      if decide (method e = "put")
      then fn [VTuples (args e)]
      else forEach fn (args e)
  | None => ret tt
  end.

(** The handler registered with [onRedraw]. *)
Definition onRedraw (m : list Entry) : M unit :=
  forEach dispatch m ;;
  modify (set_lastScrollRegion None) ;;
  modify (fun s => set_timers (timers s ++ [TaskMoveCursor]) s).

(** The event loop runs the oldest timer: [() => ui.moveCursor()]. *)
Definition run_timer : M unit :=
  ts <- gets timers ;;
  match ts with
  | [] => ret tt
  | TaskMoveCursor :: rest =>
      modify (set_timers rest) ;;
      ui_call MoveCursor
  end.

(* ------------------------------------------------------------------ *)
(** ** Views of a run: what a handler sends to the canvas *)

(** The cursor after one glyph of [r.put], on a canvas of [n] columns. *)
Definition advance (n : Z) (c : Cursor.t) : Cursor.t :=
  if Cursor.col c + 1 >? n
  then Cursor.mk (Cursor.row c + 1) 0
  else Cursor.mk (Cursor.row c) (Cursor.col c + 1).

(** The [fillText] calls of the loop of [r.put], and the cursor it leaves. *)
Fixpoint text_calls (n : Z) (c : Cursor.t) (m : list (list value)) : list Call :=
  match m with
  | [] => []
  | tuple :: rest =>
      FillText (glyph tuple) (Cursor.col c) (Cursor.row c)
        :: text_calls n (advance n c) rest
  end.

Fixpoint end_cursor (n : Z) (c : Cursor.t) (m : list (list value)) : Cursor.t :=
  match m with
  | [] => c
  | _ :: rest => end_cursor n (advance n c) rest
  end.

(** The canvas [u] after it has received [cs] and its cursor has moved to [c]. *)
Definition painted (u : CanvasGrid.t) (c : Cursor.t) (cs : list Call) : CanvasGrid.t :=
  CanvasGrid.mk (CanvasGrid.cols u) (CanvasGrid.rows u) c (CanvasGrid.calls u ++ cs).

(** The four calls of a scroll by [amount] over the region [rg], on a canvas
    that has received [taken] calls, with theme background [bg]. *)
Definition scroll_calls (amount : Z) (rg : ScrollRegion.t) (bg : string)
    (taken : nat) : list Call :=
  let top := ScrollRegion.top rg in
  let bottom := ScrollRegion.bottom rg in
  let left := ScrollRegion.left rg in
  let right := ScrollRegion.right rg in
  if amount >? 0
  then [ GetImageData left (top + amount) (right - left + 1)
                      (bottom - (top + amount) + 1);
         PutImageData (mkImageData left (top + amount) (right - left + 1)
                                   (bottom - (top + amount) + 1) taken)
                      left top;
         SetColor bg;
         FillRect left (bottom - amount + 1) (right - left + 1) amount ]
  else [ GetImageData left top (right - left + 1)
                      (bottom - (top + - amount) + 1);
         PutImageData (mkImageData left top (right - left + 1)
                                   (bottom - (top + - amount) + 1) taken)
                      left (top + - amount);
         SetColor bg;
         FillRect left top (right - left + 1) (- amount) ].

(** The region [r.scroll] works on in state [s]. *)
Definition scroll_target (s : State) : ScrollRegion.t :=
  match lastScrollRegion s with
  | Some rg => rg
  | None => ScrollRegion.mk 0 (CanvasGrid.rows (ui s)) 0 (CanvasGrid.cols (ui s))
  end.

(** A computation that, when it returns, has left [nextAttrs] as it was. *)
Definition keeps_nextAttrs {A} (c : M A) : Prop :=
  forall s a s', c s = Ok a s' -> nextAttrs s' = nextAttrs s.

(** A computation that, when it returns, has left the part [proj] of the
    state as it was. *)
Definition stays {A F} (proj : State -> F) (c : M A) : Prop :=
  forall s a s', c s = Ok a s' -> proj s' = proj s.

(** A computation that, when it returns, has sent the canvas only calls
    that satisfy [P], after the calls the canvas had already received. *)
Definition emits {A} (P : Call -> Prop) (c : M A) : Prop :=
  forall s a s', c s = Ok a s' ->
    exists cs, CanvasGrid.calls (ui s') = CanvasGrid.calls (ui s) ++ cs /\
               Forall P cs.

(** The names assigned through the proxy [r]. *)
Definition registered : list string :=
  [ "clear"; "update_fg"; "update_bg"; "update_sp"; "cursor_goto";
    "eol_clear"; "set_scroll_region"; "mode_info_set"; "mode_change";
    "highlight_set"; "scroll"; "put" ].

(** [['cursor_goto', [row, col]]] *)
Definition goto_entry (p : Z * Z) : Entry :=
  mkEntry "cursor_goto" [[VNum (fst p); VNum (snd p)]].

(** Two hexadecimal digits for a byte: what [asColor] prints for each of its
    three shifts, padding included. *)
Definition hexByte (n : Z) : string :=
  String.append (hexDigit (n / 16)) (hexDigit (n mod 16)).

(** The characters 0-9 and a-f. *)
Definition lower_hex (a : ascii) : Prop :=
  a ∈ list_ascii_of_string "0123456789abcdef".

(** The object [a] with its [reverse] field replaced. *)
Definition with_reverse (a : Attrs.t) (r : option string) : Attrs.t :=
  Attrs.mk (Attrs.fg a) (Attrs.bg a) (Attrs.foreground a) (Attrs.background a)
           (Attrs.special a) r (Attrs.italic a) (Attrs.bold a)
           (Attrs.underline a) (Attrs.undercurl a).

(* ------------------------------------------------------------------ *)
(** ** Concrete canvases, states and batches *)

(** A canvas of 10 columns and 5 rows that has received no call. *)
Definition grid10x5 : CanvasGrid.t := CanvasGrid.mk 10 5 (Cursor.mk 0 0) [].

(** The attribute set that [highlight_set({})] stores under the initial
    theme. *)
Definition plain : Attrs.t :=
  Attrs.mk "#ccc" "#222" None None None None None None None None.

(** The module on [grid10x5] once [plain] is pending. *)
Definition ready : State := set_nextAttrs (Some plain) (init grid10x5).

(** [[['cursor_goto', [2, 3]], ['put', ['a'], ['b'], ['c']]]] *)
Definition batch_abc : list Entry :=
  [ mkEntry "cursor_goto" [[VNum 2; VNum 3]];
    mkEntry "put" [[VStr "a"]; [VStr "b"]; [VStr "c"]] ].

(** [{ foreground: 0xff0000 }] *)
Definition red_request : Attrs.t :=
  Attrs.mk "" "" (Some 16711680) None None None None None None None.

(** [[['highlight_set', [{ foreground: 0xff0000 }]], ['put', ['a']],
      ['put', ['b']]]] *)
Definition batch_red_a_b : list Entry :=
  [ mkEntry "highlight_set" [[VAttrs red_request]];
    mkEntry "put" [[VStr "a"]];
    mkEntry "put" [[VStr "b"]] ].

(** [{ foreground: 0 }]: an explicit black foreground. *)
Definition black_request : Attrs.t :=
  Attrs.mk "" "" (Some 0) None None None None None None None.

(** [[['put', ['a']], ['cursor_goto', [1, 1]]]] *)
Definition batch_put_goto : list Entry :=
  [ mkEntry "put" [[VStr "a"]];
    mkEntry "cursor_goto" [[VNum 1; VNum 1]] ].

(** [{ name: 'insert', short_name: 'i', cursor_shape: 'vertical',
      cell_percentage: 25, hl_id: 5 }] *)
Definition insert_info : ModeInfo.t :=
  ModeInfo.mk None None None (Some 25) (Some "vertical") (Some 5) None None
              "insert" "i".

(** [{ name: 'normal', short_name: 'n', cursor_shape: 'horizontal',
      cell_percentage: 20 }] and [{ name: 'insert', short_name: 'i',
      cursor_shape: 'block', cell_percentage: 100 }]: descriptors without a
    highlight group. *)
Definition normal_info : ModeInfo.t :=
  ModeInfo.mk None None None (Some 20) (Some "horizontal") None None None
              "normal" "n".

Definition insert_block_info : ModeInfo.t :=
  ModeInfo.mk None None None (Some 100) (Some "block") None None None
              "insert" "i".

(** A batch that registers 'normal' and 'insert', selects 'normal', announces
    'insert' again, now with the highlight group 5, and selects 'insert'
    while the color of that group is awaited. *)
Definition batch_reannounce : list Entry :=
  [ mkEntry "mode_info_set" [[VNum 1; VModeInfos [normal_info; insert_block_info]]];
    mkEntry "mode_change" [[VStr "normal"]];
    mkEntry "mode_info_set" [[VNum 1; VModeInfos [insert_info]]];
    mkEntry "mode_change" [[VStr "insert"]] ].

(** [[['set_scroll_region', [1, 3, 2, 7]], ['scroll', [1], [1]]]]: one saved
    region, two scrolls. *)
Definition batch_two_scrolls : list Entry :=
  [ mkEntry "set_scroll_region" [[VNum 1; VNum 3; VNum 2; VNum 7]];
    mkEntry "scroll" [[VNum 1]; [VNum 1]] ].

(* ------------------------------------------------------------------ *)
(** ** Running the handlers: proofs *)

Ltac run :=
  unfold bind, ui_getImageData, ui_cursor, ui_call, set_cursor, ui_cols,
    ui_rows, gets, modify, ret, throw; cbn.

Lemma put_loop_run (m : list (list value)) (s : State) :
  put_loop m s =
  Ok tt (set_ui (painted (ui s)
                   (end_cursor (CanvasGrid.cols (ui s)) (CanvasGrid.cursor (ui s)) m)
                   (text_calls (CanvasGrid.cols (ui s)) (CanvasGrid.cursor (ui s)) m))
           s).
Proof.
  revert s; induction m as [|tuple rest IH]; intros s.
  - destruct s as [[n r c l] cs ms last na aw ts]. cbn.
    unfold painted; cbn. now rewrite app_nil_r.
  - destruct s as [[n r c l] cs ms last na aw ts]. cbn [put_loop]. run.
    destruct (Cursor.col c + 1 >? n) eqn:E; cbn;
      rewrite IH; cbn; unfold painted, set_ui; cbn;
      rewrite <- app_assoc; unfold advance; now rewrite E.
Qed.

Lemma r_put_run (m : list (list value)) (s : State) (na : Attrs.t) :
  nextAttrs s = Some na ->
  m <> [] ->
  r_put m s =
  Ok tt (set_ui (painted (ui s)
                   (end_cursor (CanvasGrid.cols (ui s)) (CanvasGrid.cursor (ui s)) m)
                   ([ SetColor (Attrs.bg na);
                      FillRect (Cursor.col (CanvasGrid.cursor (ui s)))
                               (Cursor.row (CanvasGrid.cursor (ui s)))
                               (Z.of_nat (length m)) 1;
                      SetColor (Attrs.fg na);
                      SetTextBaseline "bottom" ]
                    ++ text_calls (CanvasGrid.cols (ui s))
                                  (CanvasGrid.cursor (ui s)) m))
           s).
Proof.
  intros Hna Hm. unfold r_put.
  destruct (Z.of_nat (length m) =? 0) eqn:E.
  - apply Z.eqb_eq in E. destruct m; [congruence | cbn in E; lia].
  - destruct s as [[n r c l] cs ms last na' aw ts]. cbn in Hna. subst. run.
    rewrite put_loop_run. cbn. unfold painted, set_ui; cbn.
    now rewrite <- !app_assoc.
Qed.

(** Without a pending attribute set a non-empty run throws at once. *)
Lemma r_put_throws (m : list (list value)) (s : State) :
  nextAttrs s = None ->
  m <> [] ->
  r_put m s = Throw (TypeError "Cannot read property 'bg' of undefined") s.
Proof.
  intros Hna Hm. unfold r_put.
  destruct (Z.of_nat (length m) =? 0) eqn:E.
  - apply Z.eqb_eq in E. destruct m; [congruence | cbn in E; lia].
  - destruct s as [[n r c l] cs ms last na' aw ts]. cbn in Hna. subst.
    reflexivity.
Qed.

Lemma r_scroll_run (amount : Z) (s : State) :
  r_scroll amount s =
  Ok tt (set_lastScrollRegion None
           (set_ui (painted (ui s) (CanvasGrid.cursor (ui s))
                      (scroll_calls amount (scroll_target s)
                         (Colors.bg (colors s))
                         (length (CanvasGrid.calls (ui s)))))
              s)).
Proof.
  destruct s as [[n r c l] cs ms last na aw ts].
  unfold r_scroll, scroll_target, scroll_calls, defaultScrollRegion,
    moveRegionUp, moveRegionDown.
  destruct last as [rg|]; run;
    destruct (amount >? 0) eqn:E; cbn;
    unfold painted, set_ui, set_lastScrollRegion; cbn;
    rewrite <- ?app_assoc; reflexivity.
Qed.

(** What the table holds under the names the properties below go through. *)
Lemma dispatch_put (m : list (list value)) :
  dispatch (mkEntry "put" m) = r_put m.
Proof. reflexivity. Qed.

Lemma dispatch_cursor_goto (row col : Z) (s : State) :
  dispatch (mkEntry "cursor_goto" [[VNum row; VNum col]]) s =
  Ok tt (set_ui (CanvasGrid.mk (CanvasGrid.cols (ui s)) (CanvasGrid.rows (ui s))
                   (Cursor.mk row col) (CanvasGrid.calls (ui s))) s).
Proof. reflexivity. Qed.

(** An entry under a name that was never registered is skipped. *)
Lemma dispatch_unknown (e : Entry) (s : State) :
  api !! method e = None -> dispatch e s = Ok tt s.
Proof. intros H. unfold dispatch. now rewrite H. Qed.

(* ------------------------------------------------------------------ *)
(** ** Which handlers write [nextAttrs] *)

Lemma keeps_ret {A} (a : A) : keeps_nextAttrs (ret a).
Proof. intros s a' s' [= _ <-]. reflexivity. Qed.

Lemma keeps_gets {A} (f : State -> A) : keeps_nextAttrs (gets f).
Proof. intros s a' s' [= _ <-]. reflexivity. Qed.

Lemma keeps_untyped {A} : keeps_nextAttrs (@untyped A).
Proof. intros s a s' [=]. Qed.

Lemma keeps_throw {A} (e : exn) : keeps_nextAttrs (@throw A e).
Proof. intros s a s' [=]. Qed.

Lemma keeps_modify (f : State -> State) :
  (forall s, nextAttrs (f s) = nextAttrs s) -> keeps_nextAttrs (modify f).
Proof. intros Hf s a s' [= _ <-]. apply Hf. Qed.

Lemma keeps_bind {A B} (c : M A) (k : A -> M B) :
  keeps_nextAttrs c -> (forall a, keeps_nextAttrs (k a)) ->
  keeps_nextAttrs (bind c k).
Proof.
  intros Hc Hk s b s'. unfold bind.
  destruct (c s) as [a s1|e s1|] eqn:E; [|discriminate..].
  intros Hrun. rewrite (Hk a s1 b s' Hrun). exact (Hc s a s1 E).
Qed.

Lemma keeps_forEach {A} (f : A -> M unit) (xs : list A) :
  (forall x, keeps_nextAttrs (f x)) -> keeps_nextAttrs (forEach f xs).
Proof.
  intros Hf. induction xs as [|x xs IH]; cbn [forEach].
  - apply keeps_ret.
  - apply keeps_bind; [apply Hf | intros _; exact IH].
Qed.

Ltac keeps_with known :=
  repeat first
    [ known
    | apply keeps_ret | apply keeps_gets | apply keeps_untyped
    | apply keeps_throw
    | apply keeps_modify; intros [? ? ? ? ? ? ?]; reflexivity
    | apply keeps_forEach; intros ?
    | apply keeps_bind; [|intros ?]
    | match goal with
      | |- keeps_nextAttrs (match ?x with _ => _ end) => destruct x
      | |- keeps_nextAttrs (if ?b then _ else _) => destruct b
      end ].

Ltac keeps := keeps_with fail.

Lemma put_loop_keeps (m : list (list value)) : keeps_nextAttrs (put_loop m).
Proof.
  induction m as [|tuple rest IH]; cbn [put_loop]; unfold ui_call, set_cursor;
    keeps; exact IH.
Qed.

Lemma r_mode_info_set_keeps (infos : list ModeInfo.t) :
  keeps_nextAttrs (r_mode_info_set infos).
Proof. unfold r_mode_info_set, mode_info_set_callback. keeps. Qed.

(** Every registered handler but [highlight_set] leaves the pending
    attribute set as it was, whatever the entry. *)
Lemma dispatch_keeps_nextAttrs (e : Entry) :
  method e <> "highlight_set" -> keeps_nextAttrs (dispatch e).
Proof.
  intros Hne. unfold dispatch.
  destruct (api !! method e) as [fn|] eqn:Hfn; [|apply keeps_ret].
  assert (Hk : forall a, keeps_nextAttrs (fn a)).
  { unfold api in Hfn. cbn [foldl] in Hfn.
    repeat (rewrite lookup_insert in Hfn;
            destruct (decide (_ = method e)) as [Heq|_];
            [ first
                [ exfalso; apply Hne; symmetry; exact Heq
                | injection Hfn as <-; intros a;
                  unfold r_put, r_scroll, r_mode_change, r_set_scroll_region,
                    r_eol_clear, r_cursor_goto, r_update_sp, r_update_bg,
                    r_update_fg, r_clear, defaultScrollRegion, moveRegionUp,
                    moveRegionDown, ui_getImageData, ui_call, set_cursor;
                  keeps_with
                    ltac:(first [ apply put_loop_keeps
                                | apply r_mode_info_set_keeps ]) ]
            | ]).
    rewrite lookup_empty in Hfn. discriminate. }
  destruct (decide (method e = "put")); [apply Hk|].
  apply keeps_forEach. exact Hk.
Qed.

(* ------------------------------------------------------------------ *)
(** ** Text runs *)

(** C1 as stated does not hold on the freshly loaded module.  No attribute
    set is pending there ([nextAttrs] has no initialiser), so in the batch
    [cursor_goto(2,3)], [put(a, b, c)] the [put] throws at [nextAttrs.bg]:
    the batch ends with that exception, the canvas has received no call, and
    the cursor is where [cursor_goto] left it, at row 2, column 3. *)
Lemma put_abc_on_fresh_module_example :
  exists x s',
    onRedraw batch_abc (init grid10x5) = Throw x s' /\
    CanvasGrid.cols (ui s') = 10 /\
    CanvasGrid.rows (ui s') = 5 /\
    CanvasGrid.calls (ui s') = [] /\
    CanvasGrid.cursor (ui s') = Cursor.mk 2 3.
Proof.
  do 2 eexists. split; [vm_compute; reflexivity|].
  repeat split.
Qed.

(** C1, as amended.  On a grid of 10 columns by 5 rows with an attribute
    set [na] pending, the batch [cursor_goto(2,3)], [put(a, b, c)] returns, the canvas
    receives the background rectangle of the run and then 'a' at column 3,
    'b' at column 4 and 'c' at column 5 of row 2, each glyph at the column
    the cursor has when the glyph is reached, and the logical cursor is left
    at row 2, column 6. *)
Theorem put_abc_at_cursor (s : State) (na : Attrs.t) :
  CanvasGrid.cols (ui s) = 10 ->
  CanvasGrid.rows (ui s) = 5 ->
  nextAttrs s = Some na ->
  exists s',
    onRedraw batch_abc s = Ok tt s' /\
    CanvasGrid.calls (ui s') =
      CanvasGrid.calls (ui s) ++
      [ SetColor (Attrs.bg na); FillRect 3 2 3 1;
        SetColor (Attrs.fg na); SetTextBaseline "bottom";
        FillText (VStr "a") 3 2; FillText (VStr "b") 4 2;
        FillText (VStr "c") 5 2 ] /\
    CanvasGrid.cursor (ui s') = Cursor.mk 2 6.
Proof.
  intros Hcols Hrows Hna.
  destruct s as [[n r c l] cs ms last na' aw ts]; cbn in *; subst.
  eexists; split.
  - unfold onRedraw, batch_abc. cbn [forEach]. unfold bind.
    rewrite dispatch_cursor_goto, dispatch_put.
    rewrite (r_put_run _ _ na) by (reflexivity || discriminate).
    reflexivity.
  - cbn. split; reflexivity.
Qed.

Lemma put_abc_at_cursor_witness :
  exists s',
    onRedraw batch_abc ready = Ok tt s' /\
    CanvasGrid.calls (ui s') =
      [ SetColor "#222"; FillRect 3 2 3 1;
        SetColor "#ccc"; SetTextBaseline "bottom";
        FillText (VStr "a") 3 2; FillText (VStr "b") 4 2;
        FillText (VStr "c") 5 2 ] /\
    CanvasGrid.cursor (ui s') = Cursor.mk 2 6.
Proof.
  exact (put_abc_at_cursor ready plain eq_refl eq_refl eq_refl).
Defined.

Lemma text_calls_fillText (n : Z) (m : list (list value)) (c0 : Cursor.t)
    (c : Call) :
  c ∈ text_calls n c0 m -> exists g x y, c = FillText g x y.
Proof.
  revert c0. induction m as [|t rest IH]; intros c0 Hc; cbn in Hc.
  - now apply elem_of_nil in Hc.
  - apply elem_of_cons in Hc as [->|Hc]; eauto.
Qed.

(** A text run issues no copy and no paste, and leaves the saved scroll
    region alone: overflowing the columns never scrolls the grid. *)
Lemma put_never_scrolls (m : list (list value)) (s s' : State) :
  r_put m s = Ok tt s' ->
  lastScrollRegion s' = lastScrollRegion s /\
  exists cs, CanvasGrid.calls (ui s') = CanvasGrid.calls (ui s) ++ cs /\
    forall c, c ∈ cs ->
      (forall x y w h, c <> GetImageData x y w h) /\
      (forall d x y, c <> PutImageData d x y).
Proof.
  intros Hrun.
  destruct m as [|t rest].
  - cbn in Hrun. injection Hrun as <-. split; [reflexivity|].
    exists []. rewrite app_nil_r. split; [reflexivity|].
    intros c Hc. now apply elem_of_nil in Hc.
  - destruct (nextAttrs s) as [na|] eqn:Hna.
    + rewrite (r_put_run _ _ na Hna) in Hrun by discriminate.
      injection Hrun as <-. split; [reflexivity|].
      eexists; split; [reflexivity|].
      intros c Hc. cbn [app] in Hc.
      do 4 (apply elem_of_cons in Hc as [->|Hc];
            [split; intros; discriminate|]).
      apply (text_calls_fillText _ (t :: rest)) in Hc as (g & x & y & ->).
      split; intros; discriminate.
    + rewrite r_put_throws in Hrun by (assumption || discriminate).
      discriminate.
Qed.

(** C6.  With the cursor in the last column ([cols - 1]) and an attribute
    set pending, a run of two glyphs paints the first at column [cols - 1]
    and the second at column [cols] of the same row, past the last column;
    the wrap to column 0 of the next row happens only after it. *)
Theorem put_wraps_one_column_late (s : State) (na : Attrs.t) (g1 g2 : list value) :
  nextAttrs s = Some na ->
  Cursor.col (CanvasGrid.cursor (ui s)) = CanvasGrid.cols (ui s) - 1 ->
  exists s',
    r_put [g1; g2] s = Ok tt s' /\
    CanvasGrid.calls (ui s') =
      CanvasGrid.calls (ui s) ++
      [ SetColor (Attrs.bg na);
        FillRect (CanvasGrid.cols (ui s) - 1)
                 (Cursor.row (CanvasGrid.cursor (ui s))) 2 1;
        SetColor (Attrs.fg na); SetTextBaseline "bottom";
        FillText (glyph g1) (CanvasGrid.cols (ui s) - 1)
                 (Cursor.row (CanvasGrid.cursor (ui s)));
        FillText (glyph g2) (CanvasGrid.cols (ui s))
                 (Cursor.row (CanvasGrid.cursor (ui s))) ] /\
    CanvasGrid.cursor (ui s') =
      Cursor.mk (Cursor.row (CanvasGrid.cursor (ui s)) + 1) 0.
Proof.
  intros Hna Hcol.
  rewrite (r_put_run _ _ na Hna) by discriminate.
  eexists; split; [reflexivity|].
  destruct s as [[n r [cr cc] l] cs ms last na' aw ts]; cbn in *; subst cc.
  unfold advance; cbn.
  replace (n - 1 + 1 >? n) with false
    by (symmetry; rewrite Z.gtb_ltb; apply Z.ltb_ge; lia).
  cbn.
  replace (n - 1 + 1 + 1 >? n) with true
    by (symmetry; rewrite Z.gtb_ltb; apply Z.ltb_lt; lia).
  replace (n - 1 + 1) with n by lia.
  split; reflexivity.
Qed.

(** On 10 columns, from row 0, column 9: 'a' at column 9, 'b' at column 10. *)
Lemma put_wraps_one_column_late_witness :
  exists s',
    r_put [[VStr "a"]; [VStr "b"]]
          (set_ui (CanvasGrid.mk 10 5 (Cursor.mk 0 9) []) ready) = Ok tt s' /\
    CanvasGrid.calls (ui s') =
      [ SetColor "#222"; FillRect 9 0 2 1;
        SetColor "#ccc"; SetTextBaseline "bottom";
        FillText (VStr "a") 9 0; FillText (VStr "b") 10 0 ] /\
    CanvasGrid.cursor (ui s') = Cursor.mk 1 0.
Proof.
  exact (put_wraps_one_column_late
           (set_ui (CanvasGrid.mk 10 5 (Cursor.mk 0 9) []) ready) plain
           [VStr "a"] [VStr "b"] eq_refl eq_refl).
Defined.

(* ------------------------------------------------------------------ *)
(** ** The pending attribute set *)

(** C7 as stated does not hold.  One [highlight_set] followed by two
    [put]s: the second [put] still
    paints with the foreground that the [highlight_set] stored, and the set
    is still pending when the batch ends. *)
Lemma pending_attrs_survive_put_example :
  exists s',
    onRedraw batch_red_a_b (init grid10x5) = Ok tt s' /\
    CanvasGrid.calls (ui s') =
      [ SetColor "#222"; FillRect 0 0 1 1; SetColor "#ff0000";
        SetTextBaseline "bottom"; FillText (VStr "a") 0 0;
        SetColor "#222"; FillRect 1 0 1 1; SetColor "#ff0000";
        SetTextBaseline "bottom"; FillText (VStr "b") 1 0 ] /\
    Attrs.fg <$> nextAttrs s' = Some "#ff0000" /\
    nextAttrs s' <> None.
Proof.
  eexists; split; [vm_compute; reflexivity|].
  cbn. split; [reflexivity|]. split; [reflexivity | discriminate].
Qed.

(** A run of entries without a [highlight_set] leaves the pending attribute
    set as it was. *)
Lemma forEach_dispatch_keeps_nextAttrs (between : list Entry) (s s' : State) :
  (forall e, e ∈ between -> method e <> "highlight_set") ->
  forEach dispatch between s = Ok tt s' ->
  nextAttrs s' = nextAttrs s.
Proof.
  revert s. induction between as [|e rest IH]; intros s Hno Hrun.
  - injection Hrun as <-. reflexivity.
  - cbn [forEach] in Hrun. unfold bind in Hrun.
    destruct (dispatch e s) as [[] s1|x s1|] eqn:He; [|discriminate..].
    rewrite (IH s1) by (try assumption; intros e' Hin; apply Hno;
                        now apply list_elem_of_further).
    apply (dispatch_keeps_nextAttrs e (Hno e (list_elem_of_here _ _)) s tt s1 He).
Qed.

(** C7, as amended.  There is one pending attribute set, the variable
    [nextAttrs]; a [put] reads it and does not discard it.  With [na]
    pending, a [put] returns and leaves [na] pending; after any further
    entries that are not a [highlight_set], a later [put] returns as well
    and paints its background rectangle and its glyphs with the colors of
    [na] again, and [na] is still pending after it. *)
Theorem put_keeps_pending_attrs (s : State) (na : Attrs.t)
    (m1 m2 : list (list value)) (between : list Entry) :
  nextAttrs s = Some na ->
  m1 <> [] ->
  m2 <> [] ->
  (forall e, e ∈ between -> method e <> "highlight_set") ->
  exists s1,
    r_put m1 s = Ok tt s1 /\
    nextAttrs s1 = Some na /\
    forall s1',
      forEach dispatch between s1 = Ok tt s1' ->
      exists s2,
        r_put m2 s1' = Ok tt s2 /\
        nextAttrs s2 = Some na /\
        CanvasGrid.calls (ui s2) =
          CanvasGrid.calls (ui s1') ++
          [ SetColor (Attrs.bg na);
            FillRect (Cursor.col (CanvasGrid.cursor (ui s1')))
                     (Cursor.row (CanvasGrid.cursor (ui s1')))
                     (Z.of_nat (length m2)) 1;
            SetColor (Attrs.fg na);
            SetTextBaseline "bottom" ] ++
          text_calls (CanvasGrid.cols (ui s1')) (CanvasGrid.cursor (ui s1')) m2.
Proof.
  intros Hna H1 H2 Hno.
  eexists. split; [apply (r_put_run m1 s na Hna H1)|].
  split; [exact Hna|].
  intros s1' Hbetween.
  assert (Hna' : nextAttrs s1' = Some na).
  { rewrite (forEach_dispatch_keeps_nextAttrs between _ s1' Hno Hbetween).
    exact Hna. }
  eexists. split; [apply (r_put_run m2 s1' na Hna' H2)|].
  split; [exact Hna'|].
  reflexivity.
Qed.

(** With [plain] pending on [grid10x5]: [put(a)], then [cursor_goto(1,0)],
    then [put(b)], which paints 'b' at row 1, column 0 with the colors of
    [plain]. *)
Lemma put_keeps_pending_attrs_witness :
  exists s1 s1' s2,
    r_put [[VStr "a"]] ready = Ok tt s1 /\
    forEach dispatch [mkEntry "cursor_goto" [[VNum 1; VNum 0]]] s1 = Ok tt s1' /\
    r_put [[VStr "b"]] s1' = Ok tt s2 /\
    nextAttrs s2 = Some plain /\
    CanvasGrid.calls (ui s2) =
      CanvasGrid.calls (ui s1') ++
      [ SetColor "#222"; FillRect 0 1 1 1; SetColor "#ccc";
        SetTextBaseline "bottom"; FillText (VStr "b") 0 1 ].
Proof.
  destruct (put_keeps_pending_attrs ready plain [[VStr "a"]] [[VStr "b"]]
              [mkEntry "cursor_goto" [[VNum 1; VNum 0]]] eq_refl)
    as (s1 & Hput1 & _ & Hlater).
  - discriminate.
  - discriminate.
  - intros e He. apply list_elem_of_singleton in He. subst e. discriminate.
  - assert (Hs1 : s1 = set_ui (CanvasGrid.mk 10 5 (Cursor.mk 0 1)
                                 [ SetColor "#222"; FillRect 0 0 1 1;
                                   SetColor "#ccc"; SetTextBaseline "bottom";
                                   FillText (VStr "a") 0 0 ]) ready).
    { vm_compute in Hput1. injection Hput1 as <-. reflexivity. }
    subst s1.
    destruct (Hlater (set_ui (CanvasGrid.mk 10 5 (Cursor.mk 1 0)
                                [ SetColor "#222"; FillRect 0 0 1 1;
                                  SetColor "#ccc"; SetTextBaseline "bottom";
                                  FillText (VStr "a") 0 0 ]) ready))
      as (s2 & Hput2 & Hna2 & Hcalls).
    + vm_compute. reflexivity.
    + do 3 eexists. split; [exact Hput1|].
      split; [vm_compute; reflexivity|].
      split; [exact Hput2|]. split; [exact Hna2|]. exact Hcalls.
Defined.

(* ------------------------------------------------------------------ *)
(** ** Scrolling *)

(** C2.  With the region [rg] saved, [scroll(amount)] for [amount > 0]
    reads the image at row [top + amount] of height
    [bottom - top + 1 - amount], pastes it at row [top] and fills with the
    theme background the [amount] rows that end at [bottom]; for
    [amount < 0] it reads the image at row [top] of height
    [bottom - top + 1 - |amount|], pastes it at row [top + |amount|] and
    fills the [|amount|] rows that start at [top].  Every rectangle starts
    at column [left] and is [right - left + 1] columns wide. *)
Theorem scroll_moves_region (s : State) (rg : ScrollRegion.t) (amount : Z) :
  lastScrollRegion s = Some rg ->
  let top := ScrollRegion.top rg in
  let bottom := ScrollRegion.bottom rg in
  let left := ScrollRegion.left rg in
  let right := ScrollRegion.right rg in
  let taken := length (CanvasGrid.calls (ui s)) in
  (amount > 0 ->
   exists s',
     r_scroll amount s = Ok tt s' /\
     CanvasGrid.calls (ui s') =
       CanvasGrid.calls (ui s) ++
       [ GetImageData left (top + amount) (right - left + 1)
                      (bottom - top + 1 - amount);
         PutImageData (mkImageData left (top + amount) (right - left + 1)
                                   (bottom - top + 1 - amount) taken)
                      left top;
         SetColor (Colors.bg (colors s));
         FillRect left (bottom - amount + 1) (right - left + 1) amount ]) /\
  (amount < 0 ->
   exists s',
     r_scroll amount s = Ok tt s' /\
     CanvasGrid.calls (ui s') =
       CanvasGrid.calls (ui s) ++
       [ GetImageData left top (right - left + 1)
                      (bottom - top + 1 - Z.abs amount);
         PutImageData (mkImageData left top (right - left + 1)
                                   (bottom - top + 1 - Z.abs amount) taken)
                      left (top + Z.abs amount);
         SetColor (Colors.bg (colors s));
         FillRect left top (right - left + 1) (Z.abs amount) ]).
Proof.
  intros Hrg top bottom left right taken.
  split; intros Hamount; rewrite r_scroll_run; eexists; (split; [reflexivity|]);
    unfold scroll_target, scroll_calls; rewrite Hrg; cbn.
  - replace (amount >? 0) with true
      by (symmetry; rewrite Z.gtb_ltb; apply Z.ltb_lt; lia).
    subst top bottom left right taken.
    repeat f_equal; lia.
  - replace (amount >? 0) with false
      by (symmetry; rewrite Z.gtb_ltb; apply Z.ltb_ge; lia).
    subst top bottom left right taken.
    replace (Z.abs amount) with (- amount) by lia.
    repeat f_equal; lia.
Qed.

(** The region (top 1, bottom 3, left 2, right 7) on [grid10x5], scrolled by
    1 and by -1. *)
Lemma scroll_moves_region_witness :
  let s := set_lastScrollRegion (Some (ScrollRegion.mk 1 3 2 7)) ready in
  (exists s',
     r_scroll 1 s = Ok tt s' /\
     CanvasGrid.calls (ui s') =
       [ GetImageData 2 2 6 2; PutImageData (mkImageData 2 2 6 2 0) 2 1;
         SetColor "#222"; FillRect 2 3 6 1 ]) /\
  (exists s',
     r_scroll (-1) s = Ok tt s' /\
     CanvasGrid.calls (ui s') =
       [ GetImageData 2 1 6 2; PutImageData (mkImageData 2 1 6 2 0) 2 2;
         SetColor "#222"; FillRect 2 1 6 1 ]).
Proof.
  intros s. split.
  - exact (proj1 (scroll_moves_region s (ScrollRegion.mk 1 3 2 7) 1 eq_refl)
                 eq_refl).
  - exact (proj2 (scroll_moves_region s (ScrollRegion.mk 1 3 2 7) (-1) eq_refl)
                 eq_refl).
Defined.

(** When the loop of the batch handler completes, no region is saved. *)
Lemma onRedraw_clears_region (m : list Entry) (s s' : State) :
  onRedraw m s = Ok tt s' -> lastScrollRegion s' = None.
Proof.
  unfold onRedraw, bind, modify.
  destruct (forEach dispatch m s) as [[] s1|e s1|]; [|discriminate..].
  intros [= <-]. reflexivity.
Qed.

(** C4.  After [set_scroll_region(top, bottom, left, right)] the first
    [scroll] works on that region and clears it; a second [scroll] without a
    new [set_scroll_region] works on the default region, which in the code
    is top 0, left 0, bottom [ui.rows], right [ui.cols] (the counts, one row
    and one column more than the grid), and no region is saved after it
    either.  A batch whose loop completes leaves no saved region. *)
Theorem scroll_region_is_one_shot (s : State) (top bottom left right a1 a2 : Z) :
  (exists s0 s1 s2,
     r_set_scroll_region top bottom left right s = Ok tt s0 /\
     r_scroll a1 s0 = Ok tt s1 /\
     CanvasGrid.calls (ui s1) =
       CanvasGrid.calls (ui s) ++
       scroll_calls a1 (ScrollRegion.mk top bottom left right)
                    (Colors.bg (colors s)) (length (CanvasGrid.calls (ui s))) /\
     lastScrollRegion s1 = None /\
     r_scroll a2 s1 = Ok tt s2 /\
     CanvasGrid.calls (ui s2) =
       CanvasGrid.calls (ui s1) ++
       scroll_calls a2
         (ScrollRegion.mk 0 (CanvasGrid.rows (ui s)) 0 (CanvasGrid.cols (ui s)))
         (Colors.bg (colors s)) (length (CanvasGrid.calls (ui s1))) /\
     lastScrollRegion s2 = None) /\
  (forall m s', onRedraw m s = Ok tt s' -> lastScrollRegion s' = None).
Proof.
  split; [|intros m s'; apply onRedraw_clears_region].
  do 3 eexists.
  split; [reflexivity|].
  split; [apply r_scroll_run|].
  split; [reflexivity|].
  split; [reflexivity|].
  split; [apply r_scroll_run|].
  split; reflexivity.
Qed.

(** C4 on the grid of 10 columns by 5 rows.  The region (top 1, bottom 3,
    left 2, right 7) is saved and two scrolls by 1 follow: the first reads
    and fills inside that region, the second reads 11 columns by 5 rows from
    row 1 and fills row 5, which is not what the region of the whole grid
    (top 0, bottom 4, left 0, right 9) would give. *)
Lemma second_scroll_on_default_region_example :
  exists s',
    onRedraw batch_two_scrolls ready = Ok tt s' /\
    CanvasGrid.calls (ui s') =
      [ GetImageData 2 2 6 2; PutImageData (mkImageData 2 2 6 2 0) 2 1;
        SetColor "#222"; FillRect 2 3 6 1;
        GetImageData 0 1 11 5; PutImageData (mkImageData 0 1 11 5 4) 0 0;
        SetColor "#222"; FillRect 0 5 11 1 ] /\
    CanvasGrid.calls (ui s') <>
      scroll_calls 1 (ScrollRegion.mk 1 3 2 7) "#222" 0 ++
      scroll_calls 1 (ScrollRegion.mk 0 4 0 9) "#222" 4.
Proof.
  eexists. split; [vm_compute; reflexivity|].
  cbn. split; [reflexivity | discriminate].
Qed.

(** A batch that only saves a region: the region is gone when it ends. *)
Lemma scroll_region_is_one_shot_witness :
  onRedraw [mkEntry "set_scroll_region" [[VNum 1; VNum 3; VNum 2; VNum 7]]]
           ready = Ok tt (set_timers [TaskMoveCursor] ready) /\
  lastScrollRegion (set_timers [TaskMoveCursor] ready) = None.
Proof.
  assert (H : onRedraw
                [mkEntry "set_scroll_region" [[VNum 1; VNum 3; VNum 2; VNum 7]]]
                ready = Ok tt (set_timers [TaskMoveCursor] ready))
    by (vm_compute; reflexivity).
  split; [exact H|].
  exact (proj2 (scroll_region_is_one_shot ready 1 3 2 7 1 1) _ _ H).
Defined.

(** C5.  [defaultScrollRegion] returns top 0, left 0, bottom [ui.rows] and
    right [ui.cols]: the row and column counts, one past the last row and
    column index.  On the grid of 10 columns by 5 rows, [scroll(1)] without a
    saved region therefore reads 11 columns and 5 rows from row 1 and fills
    row 5. *)
Theorem default_scroll_region_is_counts :
  (forall s,
     defaultScrollRegion s =
     Ok (ScrollRegion.mk 0 (CanvasGrid.rows (ui s)) 0 (CanvasGrid.cols (ui s))) s) /\
  exists s',
    r_scroll 1 (init grid10x5) = Ok tt s' /\
    CanvasGrid.calls (ui s') =
      [ GetImageData 0 1 11 5; PutImageData (mkImageData 0 1 11 5 0) 0 0;
        SetColor "#222"; FillRect 0 5 11 1 ] /\
    CanvasGrid.calls (ui s') <>
      scroll_calls 1 (ScrollRegion.mk 0 4 0 9) "#222" 0.
Proof.
  split; [reflexivity|].
  eexists. split; [vm_compute; reflexivity|].
  cbn. split; [reflexivity | discriminate].
Qed.

(* ------------------------------------------------------------------ *)
(** ** Theme colors and highlight attributes *)

(** C10.  [update_fg], [update_bg] and [update_sp] leave the theme as it is
    for every argument at or below -1, and store [asColor] of the argument
    for every argument above -1, 0 included. *)
Theorem update_color_guard (v : Z) (s : State) :
  (v <= -1 ->
   r_update_fg v s = Ok tt s /\
   r_update_bg v s = Ok tt s /\
   r_update_sp v s = Ok tt s) /\
  (v > -1 ->
   r_update_fg v s =
     Ok tt (set_colors (Colors.mk (asColor v) (Colors.bg (colors s))
                                  (Colors.sp (colors s))) s) /\
   r_update_bg v s =
     Ok tt (set_colors (Colors.mk (Colors.fg (colors s)) (asColor v)
                                  (Colors.sp (colors s))) s) /\
   r_update_sp v s =
     Ok tt (set_colors (Colors.mk (Colors.fg (colors s)) (Colors.bg (colors s))
                                  (asColor v)) s)).
Proof.
  unfold r_update_fg, r_update_bg, r_update_sp.
  split; intros Hv.
  - replace (v >? -1) with false
      by (symmetry; rewrite Z.gtb_ltb; apply Z.ltb_ge; lia).
    repeat split.
  - replace (v >? -1) with true
      by (symmetry; rewrite Z.gtb_ltb; apply Z.ltb_lt; lia).
    repeat split.
Qed.

(** [update_fg(-7)] changes nothing; [update_fg(0)] sets the foreground to
    black. *)
Lemma update_color_guard_witness :
  r_update_fg (-7) ready = Ok tt ready /\
  r_update_fg 0 ready =
    Ok tt (set_colors (Colors.mk "#000000" "#222" "#f00") ready).
Proof.
  split.
  - exact (proj1 (proj1 (update_color_guard (-7) ready)
                        (fun H : (-7 ?= -1) = Gt => ltac:(discriminate H)))).
  - exact (proj1 (proj2 (update_color_guard 0 ready) eq_refl)).
Defined.

(** What [highlight_set] stores, for every argument: a color field that is
    present and not 0 is resolved with [asColor], otherwise the theme color
    is taken; a truthy [reverse] swaps the two. *)
Lemma r_highlight_set_run (attrs : option Attrs.t) (s : State) :
  let a := default (Attrs.mk "" "" None None None None None None None None)
                   attrs in
  let fg := if truthy_num (Attrs.foreground a)
            then asColor (default 0 (Attrs.foreground a))
            else Colors.fg (colors s) in
  let bg := if truthy_num (Attrs.background a)
            then asColor (default 0 (Attrs.background a))
            else Colors.bg (colors s) in
  exists na,
    r_highlight_set attrs s = Ok tt (set_nextAttrs (Some na) s) /\
    Attrs.fg na = (if truthy_str (Attrs.reverse a) then bg else fg) /\
    Attrs.bg na = (if truthy_str (Attrs.reverse a) then fg else bg).
Proof.
  intros a fg bg. subst fg bg.
  destruct s as [u cs ms last na' aw ts].
  unfold r_highlight_set. fold a.
  destruct (Attrs.foreground a) as [f|], (Attrs.background a) as [b|];
    cbn [default]; run;
    destruct (truthy_str (Attrs.reverse a)); cbn;
    eexists; (split; [reflexivity|]); cbn; split; reflexivity.
Qed.

(** C3.  [highlight_set({ foreground: 0 })] under the initial theme stores
    the theme foreground '#ccc' as the pending foreground, not the color
    '#000000' that [asColor] gives for the number 0 passed in. *)
Theorem highlight_set_explicit_black :
  exists s',
    r_highlight_set (Some black_request) (init grid10x5) = Ok tt s' /\
    Attrs.fg <$> nextAttrs s' = Some "#ccc" /\
    asColor 0 = "#000000".
Proof.
  eexists. split; [vm_compute; reflexivity|].
  split; reflexivity.
Qed.

(* ------------------------------------------------------------------ *)
(** ** A handler that throws *)

Lemma forEach_app {A} (f : A -> M unit) (xs ys : list A) (s : State) :
  forEach f (xs ++ ys) s = (forEach f xs ;; forEach f ys) s.
Proof.
  revert s. induction xs as [|x xs IH]; intros s; cbn.
  - reflexivity.
  - unfold bind. destruct (f x s) as [[] s1|e s1|]; try reflexivity.
    rewrite IH. reflexivity.
Qed.

(** C8 as stated does not hold.  On the freshly loaded module no attribute
    set is pending, so the [put] of [batch_put_goto] throws.  The batch handler ends with that exception:
    the [cursor_goto] that follows is not dispatched (the cursor is still at
    row 0, column 0, while dispatching it would move the cursor to row 1,
    column 1), and no cursor commit is scheduled. *)
Lemma failing_put_aborts_batch_example :
  exists x s',
    onRedraw batch_put_goto (init grid10x5) = Throw x s' /\
    CanvasGrid.cursor (ui s') = Cursor.mk 0 0 /\
    timers s' = [] /\
    exists s'',
      dispatch (mkEntry "cursor_goto" [[VNum 1; VNum 1]]) s' = Ok tt s'' /\
      CanvasGrid.cursor (ui s'') = Cursor.mk 1 1.
Proof.
  do 2 eexists. split; [vm_compute; reflexivity|].
  split; [reflexivity|]. split; [reflexivity|].
  eexists. split; [vm_compute; reflexivity|]. reflexivity.
Qed.

(** C8, as amended.  When the entries [pre] of a batch have been dispatched
    and the handler of the next entry [e] throws, the batch handler ends
    with that exception in the state the handler left: the entries [rest]
    are not dispatched, the saved scroll region is not cleared and no cursor
    commit is scheduled. *)
Theorem throw_aborts_batch (pre rest : list Entry) (e : Entry)
    (s s1 s2 : State) (x : exn) :
  forEach dispatch pre s = Ok tt s1 ->
  dispatch e s1 = Throw x s2 ->
  onRedraw (pre ++ e :: rest) s = Throw x s2.
Proof.
  intros Hpre He.
  unfold onRedraw, bind. rewrite forEach_app. unfold bind.
  rewrite Hpre. cbn [forEach]. unfold bind. rewrite He. reflexivity.
Qed.

(** [cursor_goto(2,3)] is dispatched, the [put] throws, [cursor_goto(1,1)]
    is not dispatched. *)
Lemma throw_aborts_batch_witness :
  let s1 := set_ui (CanvasGrid.mk 10 5 (Cursor.mk 2 3) []) (init grid10x5) in
  onRedraw ([mkEntry "cursor_goto" [[VNum 2; VNum 3]]]
            ++ mkEntry "put" [[VStr "a"]]
            :: [mkEntry "cursor_goto" [[VNum 1; VNum 1]]])
           (init grid10x5)
  = Throw (TypeError "Cannot read property 'bg' of undefined") s1.
Proof.
  intros s1.
  apply (throw_aborts_batch _ _ _ (init grid10x5) s1 s1).
  - vm_compute; reflexivity.
  - vm_compute; reflexivity.
Defined.

(* ------------------------------------------------------------------ *)
(** ** Cursor modes *)

(** A descriptor with a truthy [hl_id] registers nothing while its color is
    awaited; a descriptor under another name leaves [mode] alone. *)
Lemma r_mode_info_set_pending (infos : list ModeInfo.t) (mode : string)
    (s : State) :
  modes s !! mode = None ->
  (forall mi, mi ∈ infos -> ModeInfo.name mi = mode ->
              truthy_num (ModeInfo.hl_id mi) = true) ->
  exists s1,
    r_mode_info_set infos s = Ok tt s1 /\
    modes s1 !! mode = None /\
    ui s1 = ui s.
Proof.
  revert s. induction infos as [|mi infos IH]; intros s Hs Hinfos.
  - exists s. repeat split; assumption.
  - unfold r_mode_info_set. cbn [forEach]. unfold bind.
    unfold mode_info_set_callback.
    destruct (truthy_num (ModeInfo.hl_id mi)) eqn:Hhl; unfold modify.
    + destruct (IH (set_awaiting
                      (awaiting s ++
                       [(mi, Mode.mk (cursorShapeType (ModeInfo.cursor_shape mi))
                                     (ModeInfo.cell_percentage mi) None)]) s))
        as (s1 & Hrun & Hm & Hu).
      * exact Hs.
      * intros mi' Hin. apply Hinfos. now apply list_elem_of_further.
      * exists s1. repeat split; assumption.
    + assert (Hne : ModeInfo.name mi <> mode).
      { intros Heq. specialize (Hinfos mi (list_elem_of_here _ _) Heq).
        congruence. }
      destruct (IH (set_modes
                      (<[ModeInfo.name mi :=
                           Mode.mk (cursorShapeType (ModeInfo.cursor_shape mi))
                                   (ModeInfo.cell_percentage mi) None]>
                         (modes s)) s))
        as (s1 & Hrun & Hm & Hu).
      * cbn. rewrite lookup_insert_ne by exact Hne. exact Hs.
      * intros mi' Hin. apply Hinfos. now apply list_elem_of_further.
      * exists s1. repeat split; assumption.
Qed.

(** C9 as stated does not hold for a mode that is announced again.  In
    [batch_reannounce] on the freshly loaded module, 'insert' is registered
    with the block shape, 'normal' is selected (underline), and 'insert' is
    announced again with a highlight group.  While the color of that group
    is awaited, [mode_change('insert')] does not throw, but it is no no-op:
    it gives the canvas the block shape of the earlier entry, so the shape
    that was active is replaced. *)
Lemma mode_change_while_reannounced_example :
  exists s',
    onRedraw batch_reannounce (init grid10x5) = Ok tt s' /\
    CanvasGrid.calls (ui s') =
      [ SetCursorShape CursorShape.underline (Some 20);
        SetCursorShape CursorShape.block (Some 100) ] /\
    awaiting s' =
      [ (insert_info, Mode.mk CursorShape.line (Some 25) None) ] /\
    modes s' !! "insert" = Some (Mode.mk CursorShape.block (Some 100) None).
Proof.
  eexists. split; [vm_compute; reflexivity|].
  split; [reflexivity|]. split; reflexivity.
Qed.

(** C9, as amended.  When [mode] is not in the registry,
    [mode_change(mode)] returns without throwing and leaves the whole state, and so the canvas and the
    cursor shape it was last given, as it was.  That is the situation after
    a [mode_info_set] whose descriptors for [mode] carry a highlight group:
    their colors are awaited, [mode] is not registered yet, and
    [mode_change(mode)] is the same no-op. *)
Theorem mode_change_unresolved_is_noop (s : State) (mode : string)
    (infos : list ModeInfo.t) :
  modes s !! mode = None ->
  (forall mi, mi ∈ infos -> ModeInfo.name mi = mode ->
              truthy_num (ModeInfo.hl_id mi) = true) ->
  r_mode_change mode s = Ok tt s /\
  exists s1,
    r_mode_info_set infos s = Ok tt s1 /\
    ui s1 = ui s /\
    r_mode_change mode s1 = Ok tt s1.
Proof.
  intros Hs Hinfos.
  assert (Hnoop : forall s0, modes s0 !! mode = None ->
                             r_mode_change mode s0 = Ok tt s0).
  { intros s0 H0. unfold r_mode_change, bind, gets. now rewrite H0. }
  split; [now apply Hnoop|].
  destruct (r_mode_info_set_pending infos mode s Hs Hinfos) as (s1 & Hrun & Hm & Hu).
  exists s1. repeat split; [assumption.. | now apply Hnoop].
Qed.

(** On the freshly loaded module, [mode_change('insert')] before and after
    [mode_info_set] has asked for the color of the highlight group 5. *)
Lemma mode_change_unresolved_is_noop_witness :
  r_mode_change "insert" (init grid10x5) = Ok tt (init grid10x5) /\
  exists s1,
    r_mode_info_set [insert_info] (init grid10x5) = Ok tt s1 /\
    ui s1 = ui (init grid10x5) /\
    r_mode_change "insert" s1 = Ok tt s1.
Proof.
  apply (mode_change_unresolved_is_noop (init grid10x5) "insert" [insert_info]).
  - reflexivity.
  - intros mi Hin _. apply list_elem_of_singleton in Hin. subst mi. reflexivity.
Defined.

(** Once the awaited color has arrived the mode is registered, with the
    shape and size of its descriptor, and [mode_change] applies them. *)
Lemma mode_change_after_fulfilled (s : State) (k : nat) (bg : option Z)
    (mi : ModeInfo.t) (info : Mode.t) :
  awaiting s !! k = Some (mi, info) ->
  exists s1,
    getColor_fulfilled k bg s = Ok tt s1 /\
    ui s1 = ui s /\
    r_mode_change (ModeInfo.name mi) s1 =
      Ok tt (set_ui (painted (ui s1) (CanvasGrid.cursor (ui s1))
                       [SetCursorShape (Mode.shape info) (Mode.size info)]) s1).
Proof.
  intros Hk. unfold getColor_fulfilled. rewrite Hk.
  eexists. split; [reflexivity|]. split; [reflexivity|].
  unfold r_mode_change, bind, gets. cbn [modes set_modes set_awaiting].
  rewrite lookup_insert_eq. reflexivity.
Qed.

(** The whole course on the freshly loaded module: [mode_info_set] for
    'insert' with a highlight group, [mode_change('insert')] while the color
    is awaited (nothing reaches the canvas), the color arrives,
    [mode_change('insert')] again (the canvas is given the line shape). *)
Example insert_mode_course :
  exists s1 s2 s3 s4,
    r_mode_info_set [insert_info] (init grid10x5) = Ok tt s1 /\
    r_mode_change "insert" s1 = Ok tt s2 /\
    CanvasGrid.calls (ui s2) = [] /\
    getColor_fulfilled 0 (Some 255) s2 = Ok tt s3 /\
    r_mode_change "insert" s3 = Ok tt s4 /\
    CanvasGrid.calls (ui s4) = [SetCursorShape CursorShape.line (Some 25)].
Proof.
  do 4 eexists.
  split; [vm_compute; reflexivity|].
  split; [vm_compute; reflexivity|].
  split; [reflexivity|].
  split; [vm_compute; reflexivity|].
  split; [vm_compute; reflexivity|].
  reflexivity.
Qed.


(* ------------------------------------------------------------------ *)
(** ** [asColor] *)

Lemma hexDigit_char (d : Z) :
  exists a, hexDigit d = String a EmptyString /\ lower_hex a.
Proof.
  unfold hexDigit, lower_hex.
  repeat match goal with
         | |- context [match ?x with _ => _ end] => destruct x
         end;
    eexists; (split; [reflexivity|]); cbn;
    repeat first [ apply list_elem_of_here | apply list_elem_of_further ].
Qed.

Lemma hexDigit_inj (a b : Z) :
  0 <= a < 16 -> 0 <= b < 16 -> hexDigit a = hexDigit b -> a = b.
Proof.
  intros Ha Hb.
  assert (Hcases : forall d, 0 <= d < 16 ->
            d = 0 \/ d = 1 \/ d = 2 \/ d = 3 \/ d = 4 \/ d = 5 \/ d = 6 \/
            d = 7 \/ d = 8 \/ d = 9 \/ d = 10 \/ d = 11 \/ d = 12 \/ d = 13 \/
            d = 14 \/ d = 15) by (intros; lia).
  destruct (Hcases a Ha) as [->|[->|[->|[->|[->|[->|[->|[->|[->|[->|[->|[->|[->|[->|[->| ->]]]]]]]]]]]]]]];
    destruct (Hcases b Hb) as [->|[->|[->|[->|[->|[->|[->|[->|[->|[->|[->|[->|[->|[->|[->| ->]]]]]]]]]]]]]]];
    cbn; intros H; first [reflexivity | discriminate H].
Qed.

(** The byte that [asColor] extracts with the shift [sh]. *)
Lemma asColor_byte (color sh : Z) :
  0 <= sh ->
  Z.shiftr (Z.land color (Z.shiftl 255 sh)) sh = (color / 2 ^ sh) mod 256.
Proof.
  intros Hsh.
  rewrite Z.shiftr_land, Z.shiftr_shiftl_l by lia.
  rewrite Z.sub_diag, Z.shiftl_0_r.
  change 255 with (Z.ones 8). rewrite Z.land_ones by lia.
  rewrite Z.shiftr_div_pow2 by lia. reflexivity.
Qed.

(** What [asColor] prints for one byte. *)
Lemma padded_hexByte (n : Z) :
  0 <= n < 256 ->
  (if Z.of_nat (String.length (toString16 n)) <? 2
   then String.append "0" (toString16 n)
   else toString16 n) = hexByte n.
Proof.
  intros Hn. unfold toString16, hexByte.
  destruct (n <? 16) eqn:E.
  - apply Z.ltb_lt in E.
    rewrite Z.div_small, Z.mod_small by lia.
    destruct (hexDigit_char n) as (a & -> & _). reflexivity.
  - destruct (hexDigit_char (n / 16)) as (a & -> & _).
    destruct (hexDigit_char (n mod 16)) as (b & -> & _). reflexivity.
Qed.

(** [asColor] prints the red, green and blue bytes of the low 24 bits, most
    significant first. *)
Lemma asColor_bytes (color : Z) :
  asColor color =
  String.append "#"
    (String.append (hexByte ((color / 65536) mod 256))
       (String.append (hexByte ((color / 256) mod 256))
                      (hexByte (color mod 256)))).
Proof.
  unfold asColor. cbn [map].
  rewrite !asColor_byte by lia.
  rewrite !padded_hexByte by (apply Z.mod_pos_bound; lia).
  change (2 ^ 16) with 65536. change (2 ^ 8) with 256. change (2 ^ 0) with 1.
  rewrite Z.div_1_r.
  unfold hexByte.
  destruct (hexDigit_char (((color / 65536) mod 256) / 16)) as (a1 & -> & _).
  destruct (hexDigit_char (((color / 65536) mod 256) mod 16)) as (a2 & -> & _).
  destruct (hexDigit_char (((color / 256) mod 256) / 16)) as (a3 & -> & _).
  destruct (hexDigit_char (((color / 256) mod 256) mod 16)) as (a4 & -> & _).
  destruct (hexDigit_char ((color mod 256) / 16)) as (a5 & -> & _).
  destruct (hexDigit_char ((color mod 256) mod 16)) as (a6 & -> & _).
  reflexivity.
Qed.

Lemma hexByte_inj (n m : Z) :
  0 <= n < 256 -> 0 <= m < 256 -> hexByte n = hexByte m -> n = m.
Proof.
  intros Hn Hm. unfold hexByte.
  destruct (hexDigit_char (n / 16)) as (a1 & E1 & _).
  destruct (hexDigit_char (n mod 16)) as (a2 & E2 & _).
  destruct (hexDigit_char (m / 16)) as (b1 & F1 & _).
  destruct (hexDigit_char (m mod 16)) as (b2 & F2 & _).
  rewrite E1, E2, F1, F2. cbn. intros [= -> ->].
  assert (Hhi : n / 16 = m / 16).
  { apply hexDigit_inj; [| |congruence];
      split; try (apply Z.div_pos; lia); apply Z.div_lt_upper_bound; lia. }
  assert (Hlo : n mod 16 = m mod 16).
  { apply hexDigit_inj; [| |congruence]; apply Z.mod_pos_bound; lia. }
  rewrite (Z.div_mod n 16), (Z.div_mod m 16) by lia. congruence.
Qed.

(** For every integer, [asColor] gives '#' and then exactly six characters,
    each one of 0-9 or a-f. *)
Theorem asColor_format (color : Z) :
  exists d1 d2 d3 d4 d5 d6,
    asColor color =
      String "#" (String d1 (String d2 (String d3 (String d4 (String d5
        (String d6 EmptyString)))))) /\
    Forall lower_hex [d1; d2; d3; d4; d5; d6].
Proof.
  rewrite asColor_bytes. unfold hexByte.
  destruct (hexDigit_char (((color / 65536) mod 256) / 16)) as (a1 & -> & H1).
  destruct (hexDigit_char (((color / 65536) mod 256) mod 16)) as (a2 & -> & H2).
  destruct (hexDigit_char (((color / 256) mod 256) / 16)) as (a3 & -> & H3).
  destruct (hexDigit_char (((color / 256) mod 256) mod 16)) as (a4 & -> & H4).
  destruct (hexDigit_char ((color mod 256) / 16)) as (a5 & -> & H5).
  destruct (hexDigit_char ((color mod 256) mod 16)) as (a6 & -> & H6).
  exists a1, a2, a3, a4, a5, a6. split; [reflexivity|].
  repeat (apply Forall_cons; split; [assumption|]). apply Forall_nil_2.
Qed.

(** [asColor] reads the low 24 bits of its argument and nothing else, and
    loses none of them: two integers get the same string exactly when they
    agree modulo 2^24. *)
Theorem asColor_low_24_bits (a b : Z) :
  asColor a = asColor b <-> a mod 16777216 = b mod 16777216.
Proof.
  rewrite !asColor_bytes. split.
  - intros H.
    assert (Hb : forall x, 0 <= x mod 256 < 256)
      by (intros; apply Z.mod_pos_bound; lia).
    assert (H3 : hexByte ((a / 65536) mod 256) = hexByte ((b / 65536) mod 256)
                 /\ hexByte ((a / 256) mod 256) = hexByte ((b / 256) mod 256)
                 /\ hexByte (a mod 256) = hexByte (b mod 256)).
    { revert H. unfold hexByte.
      repeat match goal with
             | |- context [hexDigit ?d] =>
                 let c := fresh "c" in let E := fresh "E" in
                 destruct (hexDigit_char d) as (c & E & _); rewrite E; clear E
             end.
      cbn. intros [= -> -> -> -> -> ->]. repeat split. }
    destruct H3 as (Hr & Hg & Hbl).
    apply hexByte_inj in Hr; [|apply Hb..].
    apply hexByte_inj in Hg; [|apply Hb..].
    apply hexByte_inj in Hbl; [|apply Hb..].
    revert Hr Hg Hbl. Z.div_mod_to_equations. lia.
  - intros H.
    assert (Hr : (a / 65536) mod 256 = (b / 65536) mod 256)
      by (revert H; Z.div_mod_to_equations; lia).
    assert (Hg : (a / 256) mod 256 = (b / 256) mod 256)
      by (revert H; Z.div_mod_to_equations; lia).
    assert (Hbl : a mod 256 = b mod 256)
      by (revert H; Z.div_mod_to_equations; lia).
    rewrite Hr, Hg, Hbl. reflexivity.
Qed.

(* ------------------------------------------------------------------ *)
(** ** What each handler writes *)

Lemma stays_ret {A F} (proj : State -> F) (a : A) : stays proj (ret a).
Proof. intros s a' s' [= _ <-]. reflexivity. Qed.

Lemma stays_gets {A F} (proj : State -> F) (f : State -> A) :
  stays proj (gets f).
Proof. intros s a' s' [= _ <-]. reflexivity. Qed.

Lemma stays_untyped {A F} (proj : State -> F) : stays proj (@untyped A).
Proof. intros s a s' [=]. Qed.

Lemma stays_throw {A F} (proj : State -> F) (e : exn) :
  stays proj (@throw A e).
Proof. intros s a s' [=]. Qed.

Lemma stays_modify {F} (proj : State -> F) (f : State -> State) :
  (forall s, proj (f s) = proj s) -> stays proj (modify f).
Proof. intros Hf s a s' [= _ <-]. apply Hf. Qed.

Lemma stays_bind {A B F} (proj : State -> F) (c : M A) (k : A -> M B) :
  stays proj c -> (forall a, stays proj (k a)) -> stays proj (bind c k).
Proof.
  intros Hc Hk s b s'. unfold bind.
  destruct (c s) as [a s1|e s1|] eqn:E; [|discriminate..].
  intros Hrun. rewrite (Hk a s1 b s' Hrun). exact (Hc s a s1 E).
Qed.

Lemma stays_forEach {A F} (proj : State -> F) (f : A -> M unit) (xs : list A) :
  (forall x, stays proj (f x)) -> stays proj (forEach f xs).
Proof.
  intros Hf. induction xs as [|x xs IH]; cbn [forEach].
  - apply stays_ret.
  - apply stays_bind; [apply Hf | intros _; exact IH].
Qed.

Ltac stays_step :=
  first
    [ apply stays_ret | apply stays_gets | apply stays_untyped
    | apply stays_throw
    | match goal with
      | |- stays _ (put_loop _) =>
          let s := fresh "s" in
          let H := fresh "H" in
          intros s ? ? H; rewrite put_loop_run in H; injection H as H;
          subst; destruct s as [[? ? ? ?] ? ? ? ? ? ?]; reflexivity
      end
    | apply stays_modify; intros [[? ? ? ?] ? ? ? ? ? ?]; reflexivity
    | apply stays_forEach; intros ?
    | apply stays_bind; [|intros ?]
    | match goal with
      | |- stays _ (match ?x with _ => _ end) => destruct x
      | |- stays _ (if ?b then _ else _) => destruct b
      end ].

Ltac unfold_handlers :=
  unfold r_put, r_scroll, r_highlight_set, r_mode_change, r_mode_info_set,
    mode_info_set_callback, r_set_scroll_region, r_eol_clear, r_cursor_goto,
    r_update_sp, r_update_bg, r_update_fg, r_clear, defaultScrollRegion,
    moveRegionUp, moveRegionDown, ui_getImageData, ui_call, set_cursor,
    ui_cursor, ui_cols, ui_rows.

(** Case analysis on a successful lookup in [api]: one goal for each
    assignment [r.name = fn], latest first. *)
Ltac api_cases H :=
  unfold api in H; cbn [foldl] in H;
  repeat (rewrite lookup_insert in H;
          match type of H with
          | context [decide (?a = ?b)] =>
              destruct (decide (a = b)) as [<-|?]
          end;
          [injection H as <-|]);
  [..|rewrite lookup_empty in H; discriminate H].

(** The names with a handler are the twelve of [registered]. *)
Lemma api_registered (name : string) :
  is_Some (api !! name) <-> name ∈ registered.
Proof.
  split.
  - intros [fn Hfn]. unfold registered. api_cases Hfn;
      repeat first [ apply list_elem_of_here | apply list_elem_of_further ].
  - unfold registered. intros Hin.
    repeat (apply elem_of_cons in Hin as [->|Hin]; [eexists; reflexivity|]).
    now apply elem_of_nil in Hin.
Qed.

Ltac not_listed :=
  let H := fresh in
  intros H;
  repeat (apply elem_of_cons in H as [H|H]; [discriminate H|]);
  now apply elem_of_nil in H.

Ltac listed :=
  solve [repeat first [ apply list_elem_of_here | apply list_elem_of_further ]].

(** A part of the state that no handler outside [writers] writes is left as
    it was by the dispatch of every entry outside [writers]. *)
Lemma dispatch_stays {F} (proj : State -> F) (writers : list string) (e : Entry) :
  (forall name fn, api !! name = Some fn -> name ∉ writers ->
                   forall a, stays proj (fn a)) ->
  method e ∉ writers ->
  stays proj (dispatch e).
Proof.
  intros Hfns Hout. unfold dispatch.
  destruct (api !! method e) as [fn|] eqn:Hfn; [|apply stays_ret].
  specialize (Hfns _ _ Hfn Hout).
  destruct (decide (method e = "put")); [apply Hfns|].
  apply stays_forEach. exact Hfns.
Qed.

Ltac handlers_stay :=
  let name := fresh "name" in
  let fn := fresh "fn" in
  let Hfn := fresh "Hfn" in
  let Hout := fresh "Hout" in
  let a := fresh "a" in
  intros name fn Hfn Hout;
  api_cases Hfn; intros a;
  first [ solve [unfold_handlers; repeat stays_step]
        | exfalso; apply Hout; listed ].

Lemma dispatch_stays_timers (e : Entry) : stays timers (dispatch e).
Proof.
  apply (dispatch_stays timers []); [handlers_stay|apply not_elem_of_nil].
Qed.

Lemma dispatch_stays_cols (e : Entry) :
  stays (fun s => CanvasGrid.cols (ui s)) (dispatch e).
Proof.
  apply (dispatch_stays (fun s => CanvasGrid.cols (ui s)) []);
    [handlers_stay|apply not_elem_of_nil].
Qed.

Lemma dispatch_stays_rows (e : Entry) :
  stays (fun s => CanvasGrid.rows (ui s)) (dispatch e).
Proof.
  apply (dispatch_stays (fun s => CanvasGrid.rows (ui s)) []);
    [handlers_stay|apply not_elem_of_nil].
Qed.

Lemma dispatch_stays_colors (e : Entry) :
  method e ∉ ["update_fg"; "update_bg"; "update_sp"] ->
  stays colors (dispatch e).
Proof. apply dispatch_stays. handlers_stay. Qed.

Lemma dispatch_stays_cursor (e : Entry) :
  method e ∉ ["cursor_goto"; "put"] ->
  stays (fun s => CanvasGrid.cursor (ui s)) (dispatch e).
Proof. apply dispatch_stays. handlers_stay. Qed.

Lemma dispatch_stays_modes (e : Entry) :
  method e ∉ ["mode_info_set"] ->
  stays (fun s => (modes s, awaiting s)) (dispatch e).
Proof. apply dispatch_stays. handlers_stay. Qed.

Lemma dispatch_stays_region (e : Entry) :
  method e ∉ ["set_scroll_region"; "scroll"] ->
  stays lastScrollRegion (dispatch e).
Proof. apply dispatch_stays. handlers_stay. Qed.

Lemma dispatch_stays_calls (e : Entry) :
  method e ∉ ["clear"; "eol_clear"; "mode_change"; "scroll"; "put"] ->
  stays (fun s => CanvasGrid.calls (ui s)) (dispatch e).
Proof. apply dispatch_stays. handlers_stay. Qed.

(** Which entry can write what.  When the dispatch of an entry returns, the
    scheduled timers and the column and row counts are as before; the theme
    is as before unless the entry is an [update_fg], [update_bg] or
    [update_sp]; the pending attribute set unless it is a [highlight_set];
    the logical cursor unless it is a [cursor_goto] or a [put]; the mode
    registry and the awaited colors unless it is a [mode_info_set]; the saved
    scroll region unless it is a [set_scroll_region] or a [scroll]; and the
    canvas has received no call unless it is a [clear], [eol_clear],
    [mode_change], [scroll] or [put]. *)
Theorem dispatch_frame (e : Entry) (s s' : State) :
  dispatch e s = Ok tt s' ->
  timers s' = timers s /\
  CanvasGrid.cols (ui s') = CanvasGrid.cols (ui s) /\
  CanvasGrid.rows (ui s') = CanvasGrid.rows (ui s) /\
  (method e ∉ ["update_fg"; "update_bg"; "update_sp"] ->
   colors s' = colors s) /\
  (method e <> "highlight_set" -> nextAttrs s' = nextAttrs s) /\
  (method e ∉ ["cursor_goto"; "put"] ->
   CanvasGrid.cursor (ui s') = CanvasGrid.cursor (ui s)) /\
  (method e ∉ ["mode_info_set"] ->
   modes s' = modes s /\ awaiting s' = awaiting s) /\
  (method e ∉ ["set_scroll_region"; "scroll"] ->
   lastScrollRegion s' = lastScrollRegion s) /\
  (method e ∉ ["clear"; "eol_clear"; "mode_change"; "scroll"; "put"] ->
   CanvasGrid.calls (ui s') = CanvasGrid.calls (ui s)).
Proof.
  intros Hrun.
  split; [exact (dispatch_stays_timers e s tt s' Hrun)|].
  split; [exact (dispatch_stays_cols e s tt s' Hrun)|].
  split; [exact (dispatch_stays_rows e s tt s' Hrun)|].
  split; [intros H; exact (dispatch_stays_colors e H s tt s' Hrun)|].
  split; [intros H; exact (dispatch_keeps_nextAttrs e H s tt s' Hrun)|].
  split; [intros H; exact (dispatch_stays_cursor e H s tt s' Hrun)|].
  split; [intros H; pose proof (dispatch_stays_modes e H s tt s' Hrun) as Hm;
          cbn in Hm; injection Hm as -> ->; split; reflexivity|].
  split; [intros H; exact (dispatch_stays_region e H s tt s' Hrun)|].
  intros H; exact (dispatch_stays_calls e H s tt s' Hrun).
Qed.

(** [update_bg(255)] on [ready]: the theme background becomes '#0000ff',
    and the pending attribute set, the cursor, the saved region and the
    canvas are as before. *)
Lemma dispatch_frame_witness :
  let s' := set_colors (Colors.mk "#ccc" "#0000ff" "#f00") ready in
  dispatch (mkEntry "update_bg" [[VNum 255]]) ready = Ok tt s' /\
  timers s' = timers ready /\
  nextAttrs s' = nextAttrs ready /\
  CanvasGrid.cursor (ui s') = CanvasGrid.cursor (ui ready) /\
  lastScrollRegion s' = lastScrollRegion ready /\
  CanvasGrid.calls (ui s') = CanvasGrid.calls (ui ready).
Proof.
  intros s'.
  assert (Hrun : dispatch (mkEntry "update_bg" [[VNum 255]]) ready = Ok tt s')
    by (vm_compute; reflexivity).
  destruct (dispatch_frame _ _ _ Hrun)
    as (Ht & _ & _ & _ & Hna & Hcur & _ & Hreg & Hcalls).
  split; [exact Hrun|].
  split; [exact Ht|].
  split; [apply Hna; discriminate|].
  split; [apply Hcur; cbn; not_listed|].
  split; [apply Hreg; cbn; not_listed|].
  apply Hcalls; cbn; not_listed.
Defined.

(* ------------------------------------------------------------------ *)
(** ** What reaches the canvas during a batch *)

Lemma emits_ret {A} (P : Call -> Prop) (a : A) : emits P (ret a).
Proof.
  intros s a' s' [= _ <-]. exists []. rewrite app_nil_r.
  split; [reflexivity | apply Forall_nil_2].
Qed.

Lemma emits_gets {A} (P : Call -> Prop) (f : State -> A) : emits P (gets f).
Proof.
  intros s a' s' [= _ <-]. exists []. rewrite app_nil_r.
  split; [reflexivity | apply Forall_nil_2].
Qed.

Lemma emits_untyped {A} (P : Call -> Prop) : emits P (@untyped A).
Proof. intros s a s' [=]. Qed.

Lemma emits_throw {A} (P : Call -> Prop) (e : exn) : emits P (@throw A e).
Proof. intros s a s' [=]. Qed.

Lemma emits_quiet (P : Call -> Prop) (f : State -> State) :
  (forall s, CanvasGrid.calls (ui (f s)) = CanvasGrid.calls (ui s)) ->
  emits P (modify f).
Proof.
  intros Hf s a s' [= _ <-]. exists []. rewrite app_nil_r.
  split; [apply Hf | apply Forall_nil_2].
Qed.

Lemma emits_ui_call (P : Call -> Prop) (c : Call) : P c -> emits P (ui_call c).
Proof.
  intros Hc s a s' [= _ <-]. exists [c].
  split; [reflexivity | apply Forall_singleton; exact Hc].
Qed.

Lemma emits_bind {A B} (P : Call -> Prop) (c : M A) (k : A -> M B) :
  emits P c -> (forall a, emits P (k a)) -> emits P (bind c k).
Proof.
  intros Hc Hk s b s'. unfold bind.
  destruct (c s) as [a s1|e s1|] eqn:E; [|discriminate..].
  intros Hrun.
  destruct (Hc s a s1 E) as (cs1 & H1 & F1).
  destruct (Hk a s1 b s' Hrun) as (cs2 & H2 & F2).
  exists (cs1 ++ cs2). rewrite H2, H1, app_assoc.
  split; [reflexivity | apply Forall_app; split; assumption].
Qed.

Lemma emits_forEach {A} (P : Call -> Prop) (f : A -> M unit) (xs : list A) :
  (forall x, emits P (f x)) -> emits P (forEach f xs).
Proof.
  intros Hf. induction xs as [|x xs IH]; cbn [forEach].
  - apply emits_ret.
  - apply emits_bind; [apply Hf | intros _; exact IH].
Qed.

(** The loop of [r.put] sends [fillText] calls only. *)
Lemma put_loop_emits (P : Call -> Prop) (m : list (list value)) :
  (forall g x y, P (FillText g x y)) -> emits P (put_loop m).
Proof.
  intros HP s a s' Hrun. rewrite put_loop_run in Hrun.
  injection Hrun as Hs. subst s'. eexists. split; [reflexivity|].
  apply Forall_forall. intros c Hc.
  apply text_calls_fillText in Hc as (g & x & y & ->). apply HP.
Qed.

Ltac emits_step :=
  first
    [ apply emits_ret | apply emits_gets | apply emits_untyped
    | apply emits_throw
    | apply emits_ui_call; cbn; discriminate
    | apply put_loop_emits; intros; cbn; discriminate
    | apply emits_quiet; intros [[? ? ? ?] ? ? ? ? ? ?]; reflexivity
    | apply emits_forEach; intros ?
    | apply emits_bind; [|intros ?]
    | match goal with
      | |- emits _ (match ?x with _ => _ end) => destruct x
      | |- emits _ (if ?b then _ else _) => destruct b
      end ].

(** No handler calls [ui.moveCursor]. *)
Lemma dispatch_never_moves_cursor (e : Entry) :
  emits (fun c => c <> MoveCursor) (dispatch e).
Proof.
  unfold dispatch.
  destruct (api !! method e) as [fn|] eqn:Hfn; [|apply emits_ret].
  assert (Hk : forall a, emits (fun c => c <> MoveCursor) (fn a)).
  { destruct e as [name tuples]. cbn [method] in Hfn.
    api_cases Hfn; intros a;
      unfold r_put, r_scroll, r_highlight_set, r_mode_change, r_mode_info_set,
        mode_info_set_callback, r_set_scroll_region, r_eol_clear,
        r_cursor_goto, r_update_sp, r_update_bg, r_update_fg, r_clear,
        defaultScrollRegion, moveRegionUp, moveRegionDown, ui_getImageData,
        set_cursor, ui_cursor, ui_cols, ui_rows;
      repeat emits_step. }
  destruct (decide (method e = "put")); [apply Hk|].
  apply emits_forEach. exact Hk.
Qed.

(** One batch, one cursor paint.  When a batch returns, whatever its
    entries, the canvas has received none of its calls from [ui.moveCursor],
    and exactly one cursor commit has been added to the timers.  With no
    earlier commit outstanding, the event loop then runs that commit: one
    [moveCursor] call, after all the calls of the batch, and no timer is
    left. *)
Theorem batch_commits_cursor_once (m : list Entry) (s s' : State) :
  timers s = [] ->
  onRedraw m s = Ok tt s' ->
  timers s' = [TaskMoveCursor] /\
  exists cs s'',
    CanvasGrid.calls (ui s') = CanvasGrid.calls (ui s) ++ cs /\
    Forall (fun c => c <> MoveCursor) cs /\
    run_timer s' = Ok tt s'' /\
    CanvasGrid.calls (ui s'') = CanvasGrid.calls (ui s) ++ cs ++ [MoveCursor] /\
    timers s'' = [].
Proof.
  intros Hnone Hrun. unfold onRedraw, bind, modify in Hrun.
  destruct (forEach dispatch m s) as [[] s1|x s1|] eqn:Hloop; [|discriminate..].
  injection Hrun as <-.
  assert (Ht : timers s1 = timers s).
  { apply (stays_forEach timers dispatch m dispatch_stays_timers s tt s1 Hloop). }
  destruct (emits_forEach _ dispatch m dispatch_never_moves_cursor s tt s1 Hloop)
    as (cs & Hcs & Hno).
  destruct s1 as [[n r c l] cl ms last na aw ts]. cbn in Ht, Hcs. subst ts l.
  rewrite Hnone. cbn. split; [reflexivity|].
  exists cs. eexists. split; [reflexivity|]. split; [exact Hno|].
  split; [reflexivity|]. cbn. split; [|reflexivity].
  now rewrite <- app_assoc.
Qed.

(** Three moves of the cursor and a [put] in one batch on [ready]. *)
Lemma batch_commits_cursor_once_witness :
  exists s' s'',
    onRedraw (map goto_entry [(1, 1); (2, 2); (3, 3)] ++
              [mkEntry "put" [[VStr "a"]]]) ready = Ok tt s' /\
    timers s' = [TaskMoveCursor] /\
    run_timer s' = Ok tt s'' /\
    CanvasGrid.calls (ui s'') =
      [ SetColor "#222"; FillRect 3 3 1 1; SetColor "#ccc";
        SetTextBaseline "bottom"; FillText (VStr "a") 3 3; MoveCursor ].
Proof.
  set (m := map goto_entry [(1, 1); (2, 2); (3, 3)] ++
            [mkEntry "put" [[VStr "a"]]]).
  set (s' := set_timers [TaskMoveCursor]
               (set_ui (CanvasGrid.mk 10 5 (Cursor.mk 3 4)
                          [ SetColor "#222"; FillRect 3 3 1 1; SetColor "#ccc";
                            SetTextBaseline "bottom"; FillText (VStr "a") 3 3 ])
                       ready)).
  assert (Hrun : onRedraw m ready = Ok tt s') by (vm_compute; reflexivity).
  destruct (batch_commits_cursor_once m ready s' eq_refl Hrun) as (Ht & _).
  exists s'. eexists. split; [exact Hrun|]. split; [exact Ht|].
  split; vm_compute; reflexivity.
Defined.

(* ------------------------------------------------------------------ *)
(** ** Entries at the edges: no tuples, unknown names *)

(** An entry that carries no argument tuple does nothing, whatever its
    name: a handler other than [put] is called once per tuple, so not at
    all, and [put] returns at once on an empty run, even when no attribute
    set is pending. *)
Theorem dispatch_without_tuples (name : string) (s : State) :
  dispatch (mkEntry name []) s = Ok tt s.
Proof.
  unfold dispatch. cbn [method args].
  destruct (api !! name) as [fn|] eqn:Hfn; [|reflexivity].
  destruct (decide (name = "put")) as [->|Hne]; [|reflexivity].
  assert (Hput : api !! "put" =
                 Some (fun a => match a with
                                | VTuples m :: _ => r_put m
                                | _ => untyped
                                end)) by reflexivity.
  rewrite Hput in Hfn. injection Hfn as <-. reflexivity.
Qed.

(** A batch made of entries under names that were never registered
    returns and changes nothing but what the end of every batch does: the
    saved scroll region is cleared and one cursor commit is scheduled. *)
Theorem batch_of_unknown_names (m : list Entry) (s : State) :
  (forall e, e ∈ m -> method e ∉ registered) ->
  onRedraw m s =
  Ok tt (set_timers (timers s ++ [TaskMoveCursor])
           (set_lastScrollRegion None s)).
Proof.
  intros Hm.
  assert (Hloop : forEach dispatch m s = Ok tt s).
  { induction m as [|e rest IH]; [reflexivity|].
    cbn [forEach]. unfold bind.
    rewrite dispatch_unknown.
    - apply IH. intros e' Hin. apply Hm. now apply list_elem_of_further.
    - apply eq_None_not_Some. rewrite api_registered.
      apply Hm. apply list_elem_of_here. }
  unfold onRedraw, bind. rewrite Hloop. reflexivity.
Qed.

Lemma batch_of_unknown_names_witness :
  onRedraw [ mkEntry "busy_start" [[]]; mkEntry "bell" [[]] ] ready =
  Ok tt (set_timers [TaskMoveCursor] ready).
Proof.
  apply (batch_of_unknown_names
           [ mkEntry "busy_start" [[]]; mkEntry "bell" [[]] ] ready).
  intros e He.
  apply elem_of_cons in He as [->|He];
    [|apply list_elem_of_singleton in He; subst e];
    cbn; unfold registered; not_listed.
Defined.

(* ------------------------------------------------------------------ *)
(** ** Moving the cursor *)

Lemma forEach_goto (ps : list (Z * Z)) (p : Z * Z) (s : State) :
  forEach dispatch (map goto_entry (ps ++ [p])) s =
  Ok tt (set_ui (CanvasGrid.mk (CanvasGrid.cols (ui s)) (CanvasGrid.rows (ui s))
                   (Cursor.mk (fst p) (snd p)) (CanvasGrid.calls (ui s))) s).
Proof.
  rewrite map_app. cbn [map].
  revert s. induction ps as [|q ps IH]; intros s; cbn [map app forEach];
    unfold bind.
  - unfold goto_entry. rewrite dispatch_cursor_goto. reflexivity.
  - unfold goto_entry at 1. rewrite dispatch_cursor_goto. rewrite IH.
    destruct s as [[n r c l] cl ms last na aw ts]. reflexivity.
Qed.

(** [cursor_goto] takes any position as it is, with no clamping, and draws
    nothing: after a batch of [cursor_goto] entries the logical cursor is at
    the last position given, the canvas has received no call, and the one
    cursor commit of the batch is scheduled. *)
Theorem cursor_goto_last_wins (ps : list (Z * Z)) (p : Z * Z) (s : State) :
  onRedraw (map goto_entry (ps ++ [p])) s =
  Ok tt (set_timers (timers s ++ [TaskMoveCursor])
           (set_lastScrollRegion None
              (set_ui (CanvasGrid.mk (CanvasGrid.cols (ui s))
                                     (CanvasGrid.rows (ui s))
                                     (Cursor.mk (fst p) (snd p))
                                     (CanvasGrid.calls (ui s))) s))).
Proof.
  unfold onRedraw, bind. rewrite forEach_goto. reflexivity.
Qed.

(* ------------------------------------------------------------------ *)
(** ** Text runs that fit, and text runs that fail *)

Lemma text_calls_straight (n : Z) (m : list (list value)) (c : Cursor.t) :
  Cursor.col c + Z.of_nat (length m) <= n ->
  text_calls n c m =
    imap (fun k tuple =>
            FillText (glyph tuple) (Cursor.col c + Z.of_nat k) (Cursor.row c)) m /\
  end_cursor n c m =
    Cursor.mk (Cursor.row c) (Cursor.col c + Z.of_nat (length m)).
Proof.
  revert c. induction m as [|tuple rest IH]; intros [r k] Hfit; cbn in *.
  - split; [reflexivity | f_equal; lia].
  - unfold advance; cbn.
    replace (k + 1 >? n) with false
      by (symmetry; rewrite Z.gtb_ltb; apply Z.ltb_ge; lia).
    destruct (IH (Cursor.mk r (k + 1))) as [Hcalls Hend]; [cbn; lia|].
    rewrite Hcalls, Hend. cbn. split.
    + f_equal; [f_equal; lia|].
      apply imap_ext. intros i t _. cbn. f_equal. lia.
    + f_equal. lia.
Qed.

(** A [put] entry hands all its tuples to the handler as one run.  With
    an attribute set pending, when the run is not empty and fits between the
    cursor and the column count, the canvas receives
    one background rectangle as wide as the run, then the glyphs, the
    [k]-th one at column [col + k] of the cursor row, and the cursor ends on
    the same row, [length m] columns further. *)
Theorem put_run_that_fits (s : State) (na : Attrs.t) (m : list (list value)) :
  nextAttrs s = Some na ->
  m <> [] ->
  Cursor.col (CanvasGrid.cursor (ui s)) + Z.of_nat (length m)
    <= CanvasGrid.cols (ui s) ->
  exists s',
    dispatch (mkEntry "put" m) s = Ok tt s' /\
    CanvasGrid.calls (ui s') =
      CanvasGrid.calls (ui s) ++
      [ SetColor (Attrs.bg na);
        FillRect (Cursor.col (CanvasGrid.cursor (ui s)))
                 (Cursor.row (CanvasGrid.cursor (ui s)))
                 (Z.of_nat (length m)) 1;
        SetColor (Attrs.fg na);
        SetTextBaseline "bottom" ] ++
      imap (fun k tuple =>
              FillText (glyph tuple)
                       (Cursor.col (CanvasGrid.cursor (ui s)) + Z.of_nat k)
                       (Cursor.row (CanvasGrid.cursor (ui s)))) m /\
    CanvasGrid.cursor (ui s') =
      Cursor.mk (Cursor.row (CanvasGrid.cursor (ui s)))
                (Cursor.col (CanvasGrid.cursor (ui s)) + Z.of_nat (length m)).
Proof.
  intros Hna Hm Hfit.
  rewrite dispatch_put, (r_put_run m s na Hna Hm).
  destruct (text_calls_straight _ m (CanvasGrid.cursor (ui s)) Hfit)
    as [Hcalls Hend].
  eexists. split; [reflexivity|]. cbn. rewrite Hcalls, Hend.
  split; reflexivity.
Qed.

(** Seven glyphs from column 3 on ten columns: the run ends at column 10. *)
Lemma put_run_that_fits_witness :
  exists s',
    dispatch (mkEntry "put" (replicate 7 [VStr "x"]))
             (set_ui (CanvasGrid.mk 10 5 (Cursor.mk 2 3) []) ready) = Ok tt s' /\
    CanvasGrid.cursor (ui s') = Cursor.mk 2 10.
Proof.
  destruct (put_run_that_fits
              (set_ui (CanvasGrid.mk 10 5 (Cursor.mk 2 3) []) ready) plain
              (replicate 7 [VStr "x"]) eq_refl)
    as (s' & Hrun & _ & Hcur).
  - discriminate.
  - cbn. lia.
  - exists s'. split; [exact Hrun | exact Hcur].
Defined.

(** A [put] fails before it paints.  With no attribute set pending, a
    non-empty run throws, and a batch that starts with it ends with that
    exception, in the very state it was started in: the canvas has received
    no call, the cursor has not moved, no commit is scheduled. *)
Theorem put_fails_before_painting (s : State) (m : list (list value))
    (rest : list Entry) :
  nextAttrs s = None ->
  m <> [] ->
  onRedraw (mkEntry "put" m :: rest) s =
  Throw (TypeError "Cannot read property 'bg' of undefined") s.
Proof.
  intros Hna Hm. unfold onRedraw. cbn [forEach]. unfold bind.
  rewrite dispatch_put, (r_put_throws m s Hna Hm). reflexivity.
Qed.

Lemma put_fails_before_painting_witness :
  onRedraw [ mkEntry "put" [[VStr "a"]]; mkEntry "clear" [[]] ]
           (init grid10x5) =
  Throw (TypeError "Cannot read property 'bg' of undefined") (init grid10x5).
Proof.
  apply (put_fails_before_painting (init grid10x5) [[VStr "a"]]
           [mkEntry "clear" [[]]]).
  - reflexivity.
  - discriminate.
Defined.

(* ------------------------------------------------------------------ *)
(** ** More on scrolling *)




(** The pasted image and the filled strip of a scroll are stacked without
    gap or overlap and end at [bottom + 1], for every amount and every
    region: for [amount > 0] the image is pasted at [top] and the strip
    starts where the image ends; otherwise (zero included, where the strip
    is empty) the strip starts at [top] and the image is pasted where the
    strip ends.  Both start at column [left] and are [right - left + 1]
    columns wide, and the image pasted is the one read by the same call. *)
Theorem scroll_paste_and_fill_are_stacked (s : State) (amount : Z) :
  let rg := scroll_target s in
  exists img y r h s',
    r_scroll amount s = Ok tt s' /\
    CanvasGrid.calls (ui s') =
      CanvasGrid.calls (ui s) ++
      [ GetImageData (img_x img) (img_y img) (img_width img) (img_height img);
        PutImageData img (ScrollRegion.left rg) y;
        SetColor (Colors.bg (colors s));
        FillRect (ScrollRegion.left rg) r
                 (ScrollRegion.right rg - ScrollRegion.left rg + 1) h ] /\
    img_x img = ScrollRegion.left rg /\
    img_width img = ScrollRegion.right rg - ScrollRegion.left rg + 1 /\
    h = Z.abs amount /\
    (amount > 0 ->
     y = ScrollRegion.top rg /\ y + img_height img = r /\
     r + h = ScrollRegion.bottom rg + 1) /\
    (amount <= 0 ->
     r = ScrollRegion.top rg /\ r + h = y /\
     y + img_height img = ScrollRegion.bottom rg + 1).
Proof.
  intros rg. rewrite r_scroll_run. fold rg. unfold scroll_calls.
  destruct (amount >? 0) eqn:E.
  - assert (amount > 0) by (rewrite Z.gtb_ltb in E; apply Z.ltb_lt in E; lia).
    exists (mkImageData (ScrollRegion.left rg) (ScrollRegion.top rg + amount)
              (ScrollRegion.right rg - ScrollRegion.left rg + 1)
              (ScrollRegion.bottom rg - (ScrollRegion.top rg + amount) + 1)
              (length (CanvasGrid.calls (ui s)))),
           (ScrollRegion.top rg), (ScrollRegion.bottom rg - amount + 1), amount.
    eexists. split; [reflexivity|]. split; [reflexivity|]. cbn.
    repeat split; lia.
  - assert (amount <= 0) by (rewrite Z.gtb_ltb in E; apply Z.ltb_ge in E; lia).
    exists (mkImageData (ScrollRegion.left rg) (ScrollRegion.top rg)
              (ScrollRegion.right rg - ScrollRegion.left rg + 1)
              (ScrollRegion.bottom rg - (ScrollRegion.top rg + - amount) + 1)
              (length (CanvasGrid.calls (ui s)))),
           (ScrollRegion.top rg + - amount), (ScrollRegion.top rg), (- amount).
    eexists. split; [reflexivity|]. split; [reflexivity|]. cbn.
    repeat split; lia.
Qed.

(* ------------------------------------------------------------------ *)
(** ** More on the theme *)

(** The three theme colors are independent: updates of two different ones
    give the same state in either order, and of two updates of the same
    color that pass the guard the later one stays. *)
Theorem theme_updates_are_independent (a b : Z) (s : State) :
  (r_update_fg a ;; r_update_bg b) s = (r_update_bg b ;; r_update_fg a) s /\
  (r_update_fg a ;; r_update_sp b) s = (r_update_sp b ;; r_update_fg a) s /\
  (r_update_bg a ;; r_update_sp b) s = (r_update_sp b ;; r_update_bg a) s /\
  (b > -1 ->
   (r_update_fg a ;; r_update_fg b) s = r_update_fg b s /\
   (r_update_bg a ;; r_update_bg b) s = r_update_bg b s /\
   (r_update_sp a ;; r_update_sp b) s = r_update_sp b s).
Proof.
  unfold r_update_fg, r_update_bg, r_update_sp, bind.
  repeat split;
    try (match goal with
         | H : b > -1 |- _ =>
             replace (b >? -1) with true
               by (symmetry; rewrite Z.gtb_ltb; apply Z.ltb_lt; lia)
         end);
    destruct (a >? -1); try destruct (b >? -1); reflexivity.
Qed.

Lemma theme_updates_are_independent_witness :
  (r_update_fg 255 ;; r_update_fg 0) ready = r_update_fg 0 ready.
Proof.
  exact (proj1 (proj2 (proj2 (proj2
           (theme_updates_are_independent 255 0 ready))) eq_refl)).
Defined.

(** The guard of [r.update_fg], for use below. *)
Lemma update_color_guard_aux (v : Z) (s : State) :
  (v <= -1 -> r_update_fg v s = Ok tt s) /\
  (v > -1 ->
   r_update_fg v s =
     Ok tt (set_colors (Colors.mk (asColor v) (Colors.bg (colors s))
                                  (Colors.sp (colors s))) s)).
Proof.
  unfold r_update_fg. split; intros Hv.
  - replace (v >? -1) with false
      by (symmetry; rewrite Z.gtb_ltb; apply Z.ltb_ge; lia).
    reflexivity.
  - replace (v >? -1) with true
      by (symmetry; rewrite Z.gtb_ltb; apply Z.ltb_lt; lia).
    reflexivity.
Qed.

(* ------------------------------------------------------------------ *)
(** ** More on the pending attribute set *)

(** The [reverse] flag swaps the two resolved colors.  For the same object
    with and without a truthy [reverse], under the same theme, the pending
    foreground of one is the pending background of the other; and
    [highlight_set] writes nothing but the pending set. *)
Theorem highlight_set_reverse_swaps (s : State) (a : Attrs.t) (r : string) :
  truthy_str (Some r) = true ->
  exists plain_set reversed_set,
    r_highlight_set (Some (with_reverse a None)) s =
      Ok tt (set_nextAttrs (Some plain_set) s) /\
    r_highlight_set (Some (with_reverse a (Some r))) s =
      Ok tt (set_nextAttrs (Some reversed_set) s) /\
    Attrs.fg reversed_set = Attrs.bg plain_set /\
    Attrs.bg reversed_set = Attrs.fg plain_set.
Proof.
  intros Hr.
  destruct (r_highlight_set_run (Some (with_reverse a None)) s)
    as (n0 & H0 & Hf0 & Hb0).
  destruct (r_highlight_set_run (Some (with_reverse a (Some r))) s)
    as (n1 & H1 & Hf1 & Hb1).
  exists n0, n1. split; [exact H0|]. split; [exact H1|].
  cbn -[truthy_str truthy_num asColor] in Hf0, Hb0, Hf1, Hb1.
  rewrite Hr in Hf1, Hb1. cbn [truthy_str] in Hf0, Hb0.
  rewrite Hf0, Hb0, Hf1, Hb1. split; reflexivity.
Qed.

Lemma highlight_set_reverse_swaps_witness :
  exists plain_set reversed_set,
    r_highlight_set (Some (with_reverse red_request None)) ready =
      Ok tt (set_nextAttrs (Some plain_set) ready) /\
    r_highlight_set (Some (with_reverse red_request (Some "true"))) ready =
      Ok tt (set_nextAttrs (Some reversed_set) ready) /\
    Attrs.fg reversed_set = Attrs.bg plain_set /\
    Attrs.bg reversed_set = Attrs.fg plain_set.
Proof.
  exact (highlight_set_reverse_swaps ready red_request "true" eq_refl).
Defined.



(* ------------------------------------------------------------------ *)
(** ** More on cursor modes *)

(** [mode_info_set] always returns, and writes neither the canvas nor the
    theme. *)
Lemma r_mode_info_set_returns (infos : list ModeInfo.t) (s : State) :
  exists s1,
    r_mode_info_set infos s = Ok tt s1 /\ ui s1 = ui s /\ colors s1 = colors s.
Proof.
  revert s. induction infos as [|mi infos IH]; intros s.
  - exists s. repeat split.
  - unfold r_mode_info_set. cbn [forEach]. unfold bind, mode_info_set_callback.
    destruct (truthy_num (ModeInfo.hl_id mi)); unfold modify;
      match goal with
      | |- context [forEach _ infos ?s0] =>
          destruct (IH s0) as (s1 & Hrun & Hu & Hc)
      end;
      exists s1; (split; [exact Hrun|]); split; assumption.
Qed.

(** A descriptor without a highlight group is registered at once, and the
    last descriptor of a call wins.  After [mode_info_set] of a list that
    ends with such a descriptor, [mode_change] under its name gives the
    canvas one [setCursorShape] call with the shape [cursorShapeType] derives
    from its [cursor_shape] and with its [cell_percentage]; the
    [mode_info_set] itself has sent the canvas nothing. *)
Theorem mode_without_highlight_is_registered_at_once
    (infos : list ModeInfo.t) (mi : ModeInfo.t) (s : State) :
  truthy_num (ModeInfo.hl_id mi) = false ->
  exists s1,
    r_mode_info_set (infos ++ [mi]) s = Ok tt s1 /\
    ui s1 = ui s /\
    r_mode_change (ModeInfo.name mi) s1 =
      Ok tt (set_ui (painted (ui s1) (CanvasGrid.cursor (ui s1))
                       [ SetCursorShape
                           (cursorShapeType (ModeInfo.cursor_shape mi))
                           (ModeInfo.cell_percentage mi) ]) s1).
Proof.
  intros Hhl.
  destruct (r_mode_info_set_returns infos s) as (s0 & Hrun & Hu & _).
  unfold r_mode_info_set in *. rewrite forEach_app. unfold bind at 1.
  rewrite Hrun. cbn [forEach]. unfold bind at 1.
  unfold mode_info_set_callback at 1. rewrite Hhl. unfold modify at 1.
  unfold ret. eexists. split; [reflexivity|]. split; [exact Hu|].
  unfold r_mode_change, bind, gets. cbn [modes set_modes].
  rewrite lookup_insert_eq. reflexivity.
Qed.

(** [{ name: 'normal', cursor_shape: 'horizontal', cell_percentage: 20 }] *)
Lemma mode_without_highlight_is_registered_at_once_witness :
  let normal := ModeInfo.mk None None None (Some 20) (Some "horizontal") None
                            None None "normal" "n" in
  exists s1 s2,
    r_mode_info_set ([insert_info] ++ [normal]) ready = Ok tt s1 /\
    r_mode_change "normal" s1 = Ok tt s2 /\
    CanvasGrid.calls (ui s2) = [SetCursorShape CursorShape.underline (Some 20)].
Proof.
  intros normal.
  destruct (mode_without_highlight_is_registered_at_once
              [insert_info] normal ready eq_refl) as (s1 & Hrun & Hu & Hchange).
  exists s1. eexists. split; [exact Hrun|]. split; [exact Hchange|].
  cbn. rewrite Hu. reflexivity.
Defined.

(** The fallback color of a mode is read when the color arrives, not when
    it is asked for.  A descriptor with a highlight group is put on hold; if
    the theme foreground is updated before the answer arrives, an answer
    without a background (or with background 0) registers the mode with the
    updated foreground, and an answer with another background registers it
    with [asColor] of that background.  The request is then no longer
    awaited. *)
Theorem mode_color_is_resolved_late (s : State) (mi : ModeInfo.t) (v : Z)
    (bg : option Z) :
  truthy_num (ModeInfo.hl_id mi) = true ->
  v > -1 ->
  exists s1 s2 s3,
    r_mode_info_set [mi] s = Ok tt s1 /\
    modes s1 = modes s /\
    r_update_fg v s1 = Ok tt s2 /\
    getColor_fulfilled (length (awaiting s)) bg s2 = Ok tt s3 /\
    modes s3 !! ModeInfo.name mi =
      Some (Mode.mk (cursorShapeType (ModeInfo.cursor_shape mi))
                    (ModeInfo.cell_percentage mi)
                    (Some (if truthy_num bg then asColor (default 0 bg)
                           else asColor v))) /\
    awaiting s3 = awaiting s.
Proof.
  intros Hhl Hv.
  do 3 eexists.
  split.
  { unfold r_mode_info_set. cbn [forEach]. unfold bind, mode_info_set_callback.
    rewrite Hhl. reflexivity. }
  split; [reflexivity|].
  split; [apply (proj2 (update_color_guard_aux v _) Hv)|].
  unfold getColor_fulfilled. cbn [awaiting set_awaiting set_colors].
  rewrite list_lookup_middle by reflexivity.
  split; [reflexivity|].
  cbn [modes set_modes set_awaiting set_colors awaiting colors Colors.fg
       Mode.shape Mode.size].
  rewrite lookup_insert_eq, delete_middle, app_nil_r.
  split; [|reflexivity].
  destruct bg as [b|]; [|reflexivity].
  cbn [default]. destruct (truthy_num (Some b)); reflexivity.
Qed.

Lemma mode_color_is_resolved_late_witness :
  exists s1 s2 s3,
    r_mode_info_set [insert_info] (init grid10x5) = Ok tt s1 /\
    r_update_fg 16711680 s1 = Ok tt s2 /\
    getColor_fulfilled 0 None s2 = Ok tt s3 /\
    modes s3 !! "insert" =
      Some (Mode.mk CursorShape.line (Some 25) (Some "#ff0000")) /\
    awaiting s3 = [].
Proof.
  destruct (mode_color_is_resolved_late (init grid10x5) insert_info 16711680
              None eq_refl eq_refl)
    as (s1 & s2 & s3 & H1 & _ & H2 & H3 & Hm & Ha).
  exists s1, s2, s3. repeat split; assumption.
Defined.

(** A mode that is registered keeps its entry while a new descriptor for it
    waits for its color: [mode_change] in between applies the shape and size
    of the entry registered before. *)
Theorem mode_keeps_old_entry_while_awaited (s : State) (mi : ModeInfo.t)
    (old : Mode.t) :
  modes s !! ModeInfo.name mi = Some old ->
  truthy_num (ModeInfo.hl_id mi) = true ->
  exists s1,
    r_mode_info_set [mi] s = Ok tt s1 /\
    ui s1 = ui s /\
    r_mode_change (ModeInfo.name mi) s1 =
      Ok tt (set_ui (painted (ui s1) (CanvasGrid.cursor (ui s1))
                       [SetCursorShape (Mode.shape old) (Mode.size old)]) s1).
Proof.
  intros Hold Hhl.
  eexists. split.
  { unfold r_mode_info_set. cbn [forEach]. unfold bind, mode_info_set_callback.
    rewrite Hhl. reflexivity. }
  split; [reflexivity|].
  unfold r_mode_change, bind, gets. cbn [modes set_awaiting].
  rewrite Hold. reflexivity.
Qed.

Lemma mode_keeps_old_entry_while_awaited_witness :
  let s := set_modes (<["insert" := Mode.mk CursorShape.block None None]> ∅)
                     ready in
  exists s1 s2,
    r_mode_info_set [insert_info] s = Ok tt s1 /\
    r_mode_change "insert" s1 = Ok tt s2 /\
    CanvasGrid.calls (ui s2) = [SetCursorShape CursorShape.block None].
Proof.
  intros s.
  destruct (mode_keeps_old_entry_while_awaited s insert_info
              (Mode.mk CursorShape.block None None))
    as (s1 & Hrun & Hu & Hchange).
  - reflexivity.
  - reflexivity.
  - exists s1. eexists. split; [exact Hrun|]. split; [exact Hchange|].
    cbn. rewrite Hu. reflexivity.
Defined.

(* ------------------------------------------------------------------ *)
(** ** Clearing, and the shape of a mode *)

(** Unlike the pending attribute set, [clear] and [eol_clear] read the
    theme when they run: in a batch that updates the background and then
    clears, the screen is cleared with the new background, and [eol_clear]
    fills one row of [cols - 1] columns from the cursor with it, without
    moving the cursor. *)
Theorem clear_uses_current_background (s : State) (v : Z) :
  v > -1 ->
  exists s',
    onRedraw [ mkEntry "update_bg" [[VNum v]];
               mkEntry "clear" [[]];
               mkEntry "eol_clear" [[]] ] s = Ok tt s' /\
    CanvasGrid.calls (ui s') =
      CanvasGrid.calls (ui s) ++
      [ SetColor (asColor v); Clear;
        SetColor (asColor v);
        FillRect (Cursor.col (CanvasGrid.cursor (ui s)))
                 (Cursor.row (CanvasGrid.cursor (ui s)))
                 (CanvasGrid.cols (ui s) - 1) 1 ] /\
    CanvasGrid.cursor (ui s') = CanvasGrid.cursor (ui s) /\
    Colors.bg (colors s') = asColor v.
Proof.
  intros Hv.
  assert (Hbg : forall s0, dispatch (mkEntry "update_bg" [[VNum v]]) s0 =
                  Ok tt (set_colors (Colors.mk (Colors.fg (colors s0)) (asColor v)
                                               (Colors.sp (colors s0))) s0)).
  { intros s0.
    change (dispatch (mkEntry "update_bg" [[VNum v]]) s0)
      with ((r_update_bg v ;; ret tt) s0).
    unfold bind, r_update_bg.
    replace (v >? -1) with true
      by (symmetry; rewrite Z.gtb_ltb; apply Z.ltb_lt; lia).
    reflexivity. }
  assert (Hclear : forall s0, dispatch (mkEntry "clear" [[]]) s0 =
                     (r_clear ;; ret tt) s0) by reflexivity.
  assert (Heol : forall s0, dispatch (mkEntry "eol_clear" [[]]) s0 =
                   (r_eol_clear ;; ret tt) s0) by reflexivity.
  unfold onRedraw. cbn [forEach]. unfold bind.
  rewrite Hbg. cbv beta iota. rewrite Hclear.
  destruct s as [[n r c l] cl ms last na aw ts].
  unfold r_clear, bind, gets, ui_call, modify, ret. cbn.
  rewrite Heol.
  eexists. split; [reflexivity|]. cbn.
  split; [now rewrite <- !app_assoc|]. split; reflexivity.
Qed.

Lemma clear_uses_current_background_witness :
  exists s',
    onRedraw [ mkEntry "update_bg" [[VNum 0]];
               mkEntry "clear" [[]];
               mkEntry "eol_clear" [[]] ] ready = Ok tt s' /\
    CanvasGrid.calls (ui s') =
      [ SetColor "#000000"; Clear; SetColor "#000000"; FillRect 0 0 9 1 ].
Proof.
  destruct (clear_uses_current_background ready 0 eq_refl)
    as (s' & Hrun & Hcalls & _).
  exists s'. split; [exact Hrun | exact Hcalls].
Defined.

(** [cursorShapeType] gives the underline shape for 'horizontal' only, the
    line shape for 'vertical' only, and the block shape for every other
    value, a missing one included. *)
Theorem cursorShapeType_cases (type : option string) :
  (cursorShapeType type = CursorShape.underline <-> type = Some "horizontal") /\
  (cursorShapeType type = CursorShape.line <-> type = Some "vertical") /\
  (cursorShapeType type = CursorShape.block <->
   type <> Some "horizontal" /\ type <> Some "vertical").
Proof.
  unfold cursorShapeType.
  repeat case_decide; subst; repeat split; intros; intuition congruence.
Qed.

(** Wrapping loses no glyph and repeats none.  Every [put] with an
    attribute set pending returns; after the background rectangle, which is
    one row high at the cursor row and as wide as the run even when the
    glyphs wrap, the canvas receives one [fillText] per tuple of the run, in
    the order of the run, with the first element of the tuple as its
    text. *)
Theorem put_draws_every_glyph_once (s : State) (na : Attrs.t)
    (m : list (list value)) :
  nextAttrs s = Some na ->
  m <> [] ->
  exists s' cs,
    r_put m s = Ok tt s' /\
    CanvasGrid.calls (ui s') =
      CanvasGrid.calls (ui s) ++
      [ SetColor (Attrs.bg na);
        FillRect (Cursor.col (CanvasGrid.cursor (ui s)))
                 (Cursor.row (CanvasGrid.cursor (ui s)))
                 (Z.of_nat (length m)) 1;
        SetColor (Attrs.fg na);
        SetTextBaseline "bottom" ] ++ cs /\
    Forall2 (fun c tuple => exists x y, c = FillText (glyph tuple) x y) cs m.
Proof.
  intros Hna Hm. rewrite (r_put_run m s na Hna Hm).
  do 2 eexists. split; [reflexivity|]. split; [reflexivity|].
  generalize (CanvasGrid.cursor (ui s)) as c.
  clear Hm. induction m as [|tuple rest IH]; intros c; cbn.
  - constructor.
  - constructor; [eauto|apply IH].
Qed.

(** Three glyphs from column 9 on ten columns: all three are drawn, the
    third one after the wrap. *)
Lemma put_draws_every_glyph_once_witness :
  exists s',
    r_put [[VStr "a"]; [VStr "b"]; [VStr "c"]]
          (set_ui (CanvasGrid.mk 10 5 (Cursor.mk 0 9) []) ready) = Ok tt s' /\
    CanvasGrid.calls (ui s') =
      [ SetColor "#222"; FillRect 9 0 3 1; SetColor "#ccc";
        SetTextBaseline "bottom"; FillText (VStr "a") 9 0;
        FillText (VStr "b") 10 0; FillText (VStr "c") 0 1 ].
Proof.
  destruct (put_draws_every_glyph_once
              (set_ui (CanvasGrid.mk 10 5 (Cursor.mk 0 9) []) ready) plain
              [[VStr "a"]; [VStr "b"]; [VStr "c"]] eq_refl)
    as (s' & cs & Hrun & _ & _); [discriminate|].
  exists s'. split; [exact Hrun|].
  vm_compute in Hrun. injection Hrun as <-. reflexivity.
Defined.

(** Explicit colors other than 0 do not depend on the theme.  When the
    object carries a foreground [f] and a background [b], both non-zero,
    and no truthy [reverse], the pending set has [asColor f] and [asColor b]
    as its colors under every theme, and every other field of the object as
    it was given. *)
Theorem highlight_set_uses_explicit_colors (s : State) (a : Attrs.t) (f b : Z) :
  Attrs.foreground a = Some f ->
  Attrs.background a = Some b ->
  f <> 0 ->
  b <> 0 ->
  truthy_str (Attrs.reverse a) = false ->
  r_highlight_set (Some a) s =
  Ok tt (set_nextAttrs
           (Some (Attrs.mk (asColor f) (asColor b) (Some f) (Some b)
                           (Attrs.special a) (Attrs.reverse a) (Attrs.italic a)
                           (Attrs.bold a) (Attrs.underline a)
                           (Attrs.undercurl a))) s).
Proof.
  intros Hf Hb Hf0 Hb0 Hr.
  destruct a as [fg0 bg0 fo ba sp rv it bo un uc]. cbn in Hf, Hb, Hr. subst fo ba.
  destruct s as [u cl ms last na aw ts].
  unfold r_highlight_set, bind, gets, modify, ret, truthy_num.
  cbn -[asColor truthy_str]. rewrite Hr.
  replace (f =? 0) with false by (symmetry; apply Z.eqb_neq; exact Hf0).
  replace (b =? 0) with false by (symmetry; apply Z.eqb_neq; exact Hb0).
  reflexivity.
Qed.

(** Red on blue, bold. *)
Lemma highlight_set_uses_explicit_colors_witness :
  r_highlight_set
    (Some (Attrs.mk "" "" (Some 16711680) (Some 255) None None None
                    (Some "true") None None)) ready =
  Ok tt (set_nextAttrs
           (Some (Attrs.mk "#ff0000" "#0000ff" (Some 16711680) (Some 255) None
                           None None (Some "true") None None)) ready).
Proof.
  apply (highlight_set_uses_explicit_colors ready
           (Attrs.mk "" "" (Some 16711680) (Some 255) None None None
                     (Some "true") None None) 16711680 255);
    first [reflexivity | discriminate].
Defined.
